(** * uni-schedule-backend: the service layer (AuthService, ClassService)

    The two services of the repository are embedded as programs over the
    calls they make on their collaborators (JWT manager, repositories,
    password hashing, clock).  A service method is a finite tree of such
    calls; running it against an implementation of the collaborators yields
    the Go return tuple, the state the collaborators are left in and the
    list of calls that were made, in order. *)

From Stdlib Require Import String List NArith Bool Arith Lia.
Import ListNotations.
Open Scope string_scope.

(* ================================================================= *)
(** * Part I: definitions *)

(** ** Package apperror *)
Module apperror.

(** The sentinel errors of the package ([var ErrX = errors.New(...)]). *)
Inductive Sentinel : Type :=
| NotFound
| AlreadyExists
| InvalidLoginOrPassword
| UsernameAlreadyTaken
| InvalidRefreshToken
| InvalidAccessToken
| UserNotFound
| DontHavePermission.

Definition Sentinel_eqb (a b : Sentinel) : bool :=
  match a, b with
  | NotFound, NotFound
  | AlreadyExists, AlreadyExists
  | InvalidLoginOrPassword, InvalidLoginOrPassword
  | UsernameAlreadyTaken, UsernameAlreadyTaken
  | InvalidRefreshToken, InvalidRefreshToken
  | InvalidAccessToken, InvalidAccessToken
  | UserNotFound, UserNotFound
  | DontHavePermission, DontHavePermission => true
  | _, _ => false
  end.

(** A Go [error] value that is not nil.  [Foreign] stands for any error
    made outside the package (database driver, JWT library); [Errorf] is
    [fmt.Errorf(format, err)] with a [%w] verb. *)
Inductive error : Type :=
| Err (s : Sentinel)
| Foreign (msg : string)
| Errorf (format : string) (err : error)
| ServiceError (msg : string) (err : error).

Definition ErrNotFound := Err NotFound.
Definition ErrAlreadyExists := Err AlreadyExists.
Definition ErrInvalidLoginOrPassword := Err InvalidLoginOrPassword.
Definition ErrUsernameAlreadyTaken := Err UsernameAlreadyTaken.
Definition ErrInvalidRefreshToken := Err InvalidRefreshToken.
Definition ErrInvalidAccessToken := Err InvalidAccessToken.
Definition ErrUserNotFound := Err UserNotFound.
Definition ErrDontHavePermission := Err DontHavePermission.

(** Modelled from the spec: [apperror.NewServiceError] is declared outside
    the two service files; the spec calls its result the generic wrapped
    ServiceError for unexpected lower-layer failures, so it keeps the
    message and the wrapped error. *)
Definition NewServiceError (msg : string) (err : error) : error :=
  ServiceError msg err.

(** [errors.Is(err, target)] for a sentinel target: the chain of wrapped
    errors is searched for the sentinel itself. *)
Fixpoint errors_Is (err : error) (target : Sentinel) : bool :=
  match err with
  | Err s => Sentinel_eqb s target
  | Foreign _ => false
  | Errorf _ e => errors_Is e target
  | ServiceError _ e => errors_Is e target
  end.

(** Whether an error is a service-level error made by [NewServiceError]. *)
Definition isServiceError (err : error) : bool :=
  match err with
  | ServiceError _ _ => true
  | _ => false
  end.

End apperror.
Export apperror.

(** ** Package domain

    The types of the package are declared outside the two service files.
    The records carry the fields the services read or write there; [User]
    has in addition the fields that [UserCreate] hands to the repository. *)
Module domain.

Definition ID : Type := N.
(** An instant of [time.Time]. *)
Definition Time : Type := N.
(** [t.UTC()] is the same instant with the location set to UTC. *)
Definition UTC (t : Time) : Time := t.

Definition Role : Type := string.
(** Modelled from the spec: [domain.RoleStudent] is declared outside the
    service files; the spec gives the default role as "student". *)
Definition RoleStudent : Role := "student".

Record User : Type := mkUser {
  User_ID : ID;
  User_Username : string;
  User_PasswordHash : string;
  User_Role : Role;
  User_CreatedAt : Time
}.

Record UserCreate : Type := mkUserCreate {
  UserCreate_Username : string;
  UserCreate_PasswordHash : string;
  UserCreate_Role : Role;
  UserCreate_CreatedAt : Time
}.

Record RefreshToken : Type := mkRefreshToken {
  RefreshToken_UserID : ID;
  RefreshToken_RefreshToken : string;
  RefreshToken_UpdatedAt : Time
}.

Record TokenPair : Type := mkTokenPair {
  TokenPair_AccessToken : string;
  TokenPair_RefreshToken : string
}.

Definition NewTokenPair (accessToken refreshToken : string) : TokenPair :=
  mkTokenPair accessToken refreshToken.

(** The zero values [domain.TokenPair{}], [domain.User{}],
    [domain.RefreshToken{}]. *)
Definition TokenPair_zero : TokenPair := mkTokenPair "" "".
Definition User_zero : User := mkUser 0%N "" "" "" 0%N.
Definition RefreshToken_zero : RefreshToken := mkRefreshToken 0%N "" 0%N.

Record Class : Type := mkClass {
  Class_ScheduleID : N
}.

Record Schedule : Type := mkSchedule {
  Schedule_UserID : N
}.

End domain.
Export domain.

(** ** Programs over collaborator calls *)
Section Programs.

(** [C X] is the type of the calls whose answer has type [X]. *)
Variable C : Type -> Type.

Inductive Prog (A : Type) : Type :=
| Ret (a : A)
| Do (X : Type) (c : C X) (k : X -> Prog A).

Arguments Ret {A} a.
Arguments Do {A X} c k.

Definition call {X : Type} (c : C X) : Prog X := Do c (fun x => Ret x).

Fixpoint bind {A B : Type} (p : Prog A) (f : A -> Prog B) : Prog B :=
  match p with
  | Ret a => f a
  | Do c k => Do c (fun x => bind (k x) f)
  end.

(** One call together with the answer it got. *)
Inductive Event : Type :=
| Ev (X : Type) (c : C X) (answer : X).

(** An implementation of the collaborators over a state [W]. *)
Definition Handler (W : Type) : Type := forall X : Type, C X -> W -> X * W.

(** Running a program: the value returned, the final state and the calls
    made, oldest first. *)
Fixpoint run {W A : Type} (h : Handler W) (p : Prog A) (w : W)
  : A * W * list Event :=
  match p with
  | Ret a => (a, w, [])
  | Do c k =>
      let '(x, w1) := h _ c w in
      let '(a, w2, tr) := run h (k x) w1 in
      (a, w2, Ev _ c x :: tr)
  end.

Definition result {W A : Type} (r : A * W * list Event) : A := fst (fst r).
Definition final {W A : Type} (r : A * W * list Event) : W := snd (fst r).
Definition trace {W A : Type} (r : A * W * list Event) : list Event := snd r.

End Programs.

Arguments Ret {C A} a.
Arguments Do {C A X} c k.
Arguments call {C X} c.
Arguments bind {C A B} p f.
Arguments Ev {C X} c answer.
Arguments run {C W A} h p w.
Arguments result {C W A} r.
Arguments final {C W A} r.
Arguments trace {C W A} r.

Declare Scope prog_scope.
Delimit Scope prog_scope with prog.
Notation "x <- p ;; q" := (bind p (fun x => q))
  (at level 61, p at next level, right associativity) : prog_scope.
Notation "' pat <- p ;; q" := (bind p (fun x => match x with pat => q end))
  (at level 61, pat pattern, p at next level, right associativity) : prog_scope.

(** ** Package auth *)
Module auth.

(** The methods of [JWTManager], [repository.UserRepository],
    [repository.TokenRepository], package [hash] and [time.Now], as the
    service calls them.  A Go result [(T, error)] is a pair whose second
    component is [None] for a nil error. *)
Inductive Call : Type -> Type :=
| ParseAccessToken (token : string) : Call (ID * option error)
| ParseRefreshToken (token : string) : Call (ID * option error)
| GenerateAccessToken (userID : ID) : Call (string * option error)
| GenerateRefreshToken (userID : ID) : Call (string * option error)
| UserRepo_GetByUsername (username : string) : Call (User * option error)
| UserRepo_GetByID (id : ID) : Call (User * option error)
| UserRepo_Create (user : UserCreate) : Call (ID * option error)
| TokenRepo_GetByUserID (id : ID) : Call (RefreshToken * option error)
| TokenRepo_CreateOrUpdate (token : RefreshToken) : Call (option error)
| HashPassword (password salt : string) : Call (string * option error)
| VerifyPassword (password hash salt : string) : Call bool
| TimeNow : Call Time.

(** The service holds its collaborators and the salt; the collaborators
    are whatever answers the calls of a run. *)
Record AuthService : Type := NewAuthService {
  passwordSalt : string
}.

Open Scope prog_scope.

Definition generateTokenPair (s : AuthService) (userID : ID)
  : Prog Call (TokenPair * option error) :=
  '(accessToken, err) <- call (GenerateAccessToken userID) ;;
  match err with
  | Some err =>
      Ret (TokenPair_zero,
           Some (Errorf "generateTokenPair.GenerateAccessToken: %w" err))
  | None =>
      '(refreshToken, err) <- call (GenerateRefreshToken userID) ;;
      match err with
      | Some err =>
          Ret (TokenPair_zero,
               Some (Errorf "generateTokenPair.GenerateRefreshToken: %w" err))
      | None => Ret (NewTokenPair accessToken refreshToken, None)
      end
  end.

Definition Login (s : AuthService) (username password : string)
  : Prog Call (TokenPair * option error) :=
  '(user, err) <- call (UserRepo_GetByUsername username) ;;
  match err with
  | Some err =>
      if errors_Is err NotFound
      then Ret (TokenPair_zero, Some ErrInvalidLoginOrPassword)
      else Ret (TokenPair_zero, Some err)
  | None =>
      ok <- call (VerifyPassword password (User_PasswordHash user)
                    (passwordSalt s)) ;;
      if negb ok
      then Ret (TokenPair_zero, Some ErrInvalidLoginOrPassword)
      else
        '(tokenPair, err) <- generateTokenPair s (User_ID user) ;;
        match err with
        | Some err =>
            Ret (TokenPair_zero,
                 Some (NewServiceError "AuthService.Login:" err))
        | None =>
            now <- call TimeNow ;;
            err <- call (TokenRepo_CreateOrUpdate
                           (mkRefreshToken (User_ID user)
                              (TokenPair_RefreshToken tokenPair)
                              (UTC now))) ;;
            match err with
            | Some err =>
                Ret (TokenPair_zero,
                     Some (NewServiceError
                             "AuthService.Login: create or update token" err))
            | None => Ret (tokenPair, None)
            end
        end
  end.

Definition Register (s : AuthService) (username password : string)
  : Prog Call (TokenPair * option error) :=
  '(passwordHash, err) <- call (HashPassword password (passwordSalt s)) ;;
  match err with
  | Some err =>
      Ret (TokenPair_zero,
           Some (NewServiceError "AuthService.Register: hashing password" err))
  | None =>
      now <- call TimeNow ;;
      '(createdID, err) <- call (UserRepo_Create
                                   (mkUserCreate username passwordHash
                                      RoleStudent now)) ;;
      match err with
      | Some err =>
          if errors_Is err AlreadyExists
          then Ret (TokenPair_zero, Some ErrUsernameAlreadyTaken)
          else Ret (TokenPair_zero,
                    Some (NewServiceError "AuthService.Register: create user"
                            err))
      | None =>
          '(tokenPair, err) <- generateTokenPair s createdID ;;
          match err with
          | Some err =>
              Ret (TokenPair_zero,
                   Some (NewServiceError "AuthService.Register:" err))
          | None =>
              now <- call TimeNow ;;
              err <- call (TokenRepo_CreateOrUpdate
                             (mkRefreshToken createdID
                                (TokenPair_RefreshToken tokenPair)
                                (UTC now))) ;;
              match err with
              | Some err =>
                  Ret (TokenPair_zero,
                       Some (NewServiceError
                               "AuthService.Register: create or update token"
                               err))
              | None => Ret (tokenPair, None)
              end
          end
      end
  end.

Definition RefreshToken (s : AuthService) (refreshToken : string)
  : Prog Call (TokenPair * option error) :=
  '(userID, err) <- call (ParseRefreshToken refreshToken) ;;
  match err with
  | Some _ => Ret (TokenPair_zero, Some ErrInvalidRefreshToken)
  | None =>
      '(storedToken, err) <- call (TokenRepo_GetByUserID userID) ;;
      match err with
      | Some err =>
          if errors_Is err NotFound
          then Ret (TokenPair_zero, Some ErrUserNotFound)
          else Ret (TokenPair_zero,
                    Some (NewServiceError
                            "AuthService.RefreshToken: getting user by id"
                            err))
      | None =>
          if negb (RefreshToken_RefreshToken storedToken =? refreshToken)%string
          then Ret (TokenPair_zero, Some ErrInvalidRefreshToken)
          else
            '(tokenPair, err) <- generateTokenPair s userID ;;
            match err with
            | Some err =>
                Ret (TokenPair_zero,
                     Some (NewServiceError "AuthService.RefreshToken:" err))
            | None =>
                now <- call TimeNow ;;
                err <- call (TokenRepo_CreateOrUpdate
                               (mkRefreshToken userID
                                  (TokenPair_RefreshToken tokenPair)
                                  (UTC now))) ;;
                match err with
                | Some err =>
                    Ret (TokenPair_zero,
                         Some (NewServiceError
                                 "AuthService.RefreshToken: create or update token"
                                 err))
                | None => Ret (tokenPair, None)
                end
            end
      end
  end.

Definition GetUserFromAccessToken (s : AuthService) (accessToken : string)
  : Prog Call (User * option error) :=
  '(userID, err) <- call (ParseAccessToken accessToken) ;;
  match err with
  | Some _ => Ret (User_zero, Some ErrInvalidAccessToken)
  | None =>
      '(user, err) <- call (UserRepo_GetByID userID) ;;
      match err with
      | Some _ => Ret (User_zero, Some ErrUserNotFound)
      | None => Ret (user, None)
      end
  end.

Close Scope prog_scope.

End auth.

(** ** Package class *)
Module class.

Section Service.

(** The DTO and view types are declared in package domain and are opaque to
    the service, which only passes them on. *)
Variables CreateClassDTO UpdateClassDTO ClassView : Type.

(** The methods of [repository.ClassRepository] and
    [repository.ScheduleRepository] as the service calls them.  The second
    result of [GetAllViews] is discarded by the service. *)
Inductive Call : Type -> Type :=
| Repo_CreateOrSplit (class : CreateClassDTO) : Call (N * option error)
| Repo_GetByID (id : N) : Call (Class * option error)
| Repo_GetAllViews (scheduleID : N)
  : Call (list ClassView * N * option error)
| Repo_UpdateOrSwitch (id scheduleID : N) (update : UpdateClassDTO)
  : Call (option error)
| Repo_Delete (id : N) : Call (option error)
| ScheduleRepo_GetByID (id : N) : Call (Schedule * option error).

Open Scope prog_scope.

Definition Create (class : CreateClassDTO) : Prog Call (N * option error) :=
  '(createdClassID, err) <- call (Repo_CreateOrSplit class) ;;
  match err with
  | Some err => Ret (0%N, Some err)
  | None => Ret (createdClassID, None)
  end.

Definition GetByID (id : N) : Prog Call (Class * option error) :=
  call (Repo_GetByID id).

Definition GetAll (scheduleID : N)
  : Prog Call (list ClassView * option error) :=
  '(classes, _, err) <- call (Repo_GetAllViews scheduleID) ;;
  match err with
  | Some err => Ret (classes, Some err)
  | None => Ret (classes, None)
  end.

Definition Update (userID id : N) (update : UpdateClassDTO)
  : Prog Call (option error) :=
  '(class, err) <- call (Repo_GetByID id) ;;
  match err with
  | Some err => Ret (Some err)
  | None =>
      '(schedule, err) <-
        call (ScheduleRepo_GetByID (Class_ScheduleID class)) ;;
      match err with
      | Some err => Ret (Some err)
      | None =>
          if negb (Schedule_UserID schedule =? userID)%N
          then Ret (Some ErrDontHavePermission)
          else call (Repo_UpdateOrSwitch id (Class_ScheduleID class) update)
      end
  end.

Definition isScheduleOwner (userID classID : N) : Prog Call (option error) :=
  '(entry, err) <- call (Repo_GetByID classID) ;;
  match err with
  | Some err => Ret (Some err)
  | None =>
      '(schedule, err) <-
        call (ScheduleRepo_GetByID (Class_ScheduleID entry)) ;;
      match err with
      | Some err => Ret (Some err)
      | None =>
          if negb (Schedule_UserID schedule =? userID)%N
          then Ret (Some ErrDontHavePermission)
          else Ret None
      end
  end.

Definition Delete (userID id : N) : Prog Call (option error) :=
  err <- isScheduleOwner userID id ;;
  match err with
  | Some err => Ret (Some err)
  | None => call (Repo_Delete id)
  end.

Close Scope prog_scope.

(** The calls that change what the class repository stores. *)
Definition is_write (e : Event Call) : bool :=
  match e with
  | Ev (Repo_CreateOrSplit _) _ => true
  | Ev (Repo_UpdateOrSwitch _ _ _) _ => true
  | Ev (Repo_Delete _) _ => true
  | Ev _ _ => false
  end.

End Service.

Arguments Repo_CreateOrSplit {CreateClassDTO UpdateClassDTO ClassView} class.
Arguments Repo_GetByID {CreateClassDTO UpdateClassDTO ClassView} id.
Arguments Repo_GetAllViews {CreateClassDTO UpdateClassDTO ClassView} scheduleID.
Arguments Repo_UpdateOrSwitch {CreateClassDTO UpdateClassDTO ClassView}
  id scheduleID update.
Arguments Repo_Delete {CreateClassDTO UpdateClassDTO ClassView} id.
Arguments ScheduleRepo_GetByID {CreateClassDTO UpdateClassDTO ClassView} id.
Arguments is_write {CreateClassDTO UpdateClassDTO ClassView} e.

End class.

(** ** What the calls of a run say *)
Module events.
Import auth.

(** The error component of the answer to a call ([None] for the calls that
    cannot fail). *)
Definition answer_error {X : Type} (c : Call X) : X -> option error :=
  match c in Call X return X -> option error with
  | ParseAccessToken _ => fun x => snd x
  | ParseRefreshToken _ => fun x => snd x
  | GenerateAccessToken _ => fun x => snd x
  | GenerateRefreshToken _ => fun x => snd x
  | UserRepo_GetByUsername _ => fun x => snd x
  | UserRepo_GetByID _ => fun x => snd x
  | UserRepo_Create _ => fun x => snd x
  | TokenRepo_GetByUserID _ => fun x => snd x
  | TokenRepo_CreateOrUpdate _ => fun x => x
  | HashPassword _ _ => fun x => snd x
  | VerifyPassword _ _ _ => fun _ => None
  | TimeNow => fun _ => None
  end.

Definition failed (e : Event Call) : bool :=
  match e with
  | Ev c x => match answer_error c x with Some _ => true | None => false end
  end.

Definition is_token_repo_call {X : Type} (c : Call X) : bool :=
  match c with
  | TokenRepo_GetByUserID _ | TokenRepo_CreateOrUpdate _ => true
  | _ => false
  end.

Definition is_user_repo_call {X : Type} (c : Call X) : bool :=
  match c with
  | UserRepo_GetByUsername _ | UserRepo_GetByID _ | UserRepo_Create _ => true
  | _ => false
  end.

Definition on_token_repo (e : Event Call) : bool :=
  match e with Ev c _ => is_token_repo_call c end.

Definition on_user_repo (e : Event Call) : bool :=
  match e with Ev c _ => is_user_repo_call c end.

(** The event is a [UserRepo.Create] for [username] that returned [id] and a
    nil error. *)
Definition created (username : string) (id : ID) (e : Event Call) : Prop :=
  match e with
  | Ev c x =>
      match c in Call X return X -> Prop with
      | UserRepo_Create user =>
          fun x => UserCreate_Username user = username /\ x = (id, None)
      | _ => fun _ => False
      end x
  end.

(** The event is a [UserRepo.GetByUsername] for [username] that found the
    user with ID [id]. *)
Definition found (username : string) (id : ID) (e : Event Call) : Prop :=
  match e with
  | Ev c x =>
      match c in Call X return X -> Prop with
      | UserRepo_GetByUsername name =>
          fun x => name = username /\ User_ID (fst x) = id /\ snd x = None
      | _ => fun _ => False
      end x
  end.

(** The event is a [ParseRefreshToken] of [token] that yielded [id]. *)
Definition parsed (token : string) (id : ID) (e : Event Call) : Prop :=
  match e with
  | Ev c x =>
      match c in Call X return X -> Prop with
      | ParseRefreshToken t => fun x => t = token /\ x = (id, None)
      | _ => fun _ => False
      end x
  end.

(** The event is a token generation for [id] that returned an error. *)
Definition generation_failed (id : ID) (e : Event Call) : Prop :=
  match e with
  | Ev c x =>
      match c in Call X return X -> Prop with
      | GenerateAccessToken u => fun x => u = id /\ snd x <> None
      | GenerateRefreshToken u => fun x => u = id /\ snd x <> None
      | _ => fun _ => False
      end x
  end.

(** The event is a [TokenRepo.CreateOrUpdate] that returned an error. *)
Definition persist_failed (id : ID) (e : Event Call) : Prop :=
  match e with
  | Ev c x =>
      match c in Call X return X -> Prop with
      | TokenRepo_CreateOrUpdate t =>
          fun x => RefreshToken_UserID t = id /\ x <> None
      | _ => fun _ => False
      end x
  end.

(** The four calls by which a token pair for [userID] is issued and its
    refresh token persisted, all answered without error. *)
Definition issues_tokens (userID : ID) (pair : TokenPair)
  (tl : list (Event Call)) : Prop :=
  exists (accessToken refreshToken : string) (now : Time),
    pair = NewTokenPair accessToken refreshToken /\
    tl = [Ev (GenerateAccessToken userID) (accessToken, None);
          Ev (GenerateRefreshToken userID) (refreshToken, None);
          Ev TimeNow now;
          Ev (TokenRepo_CreateOrUpdate
                (mkRefreshToken userID refreshToken (UTC now))) None].

End events.

(** ** In-memory repositories *)
Module memory.
Import auth.

(** Modelled from the spec: the implementation of
    [UserRepository.GetByUsername] is not part of the service files; the
    spec gives it as [GetByUsername(name) -> User | NotFound]. *)
Definition users_GetByUsername (us : list User) (username : string)
  : User * option error :=
  match find (fun u => (User_Username u =? username)%string) us with
  | Some u => (u, None)
  | None => (User_zero, Some ErrNotFound)
  end.

(** Modelled from the spec: the implementation of [UserRepository.GetByID]
    is not part of the service files; the spec gives it as
    [GetByID(id) -> User | NotFound]. *)
Definition users_GetByID (us : list User) (id : ID) : User * option error :=
  match find (fun u => (User_ID u =? id)%N) us with
  | Some u => (u, None)
  | None => (User_zero, Some ErrNotFound)
  end.

(** Modelled from the spec: the repository hands out the identifiers of
    new users; the one it picks is an identifier no stored user has. *)
Definition next_ID (us : list User) : ID :=
  N.succ (fold_right N.max 0%N (map User_ID us)).

(** Modelled from the spec: the implementation of [UserRepository.Create]
    is not part of the service files; the spec gives it as
    [Create(UserCreate) -> id | AlreadyExists], with the uniqueness of the
    username enforced by the repository. *)
Definition users_Create (us : list User) (c : UserCreate)
  : (ID * option error) * list User :=
  if existsb (fun u => (User_Username u =? UserCreate_Username c)%string) us
  then ((0%N, Some ErrAlreadyExists), us)
  else
    let id := next_ID us in
    ((id, None),
     (us ++ [mkUser id (UserCreate_Username c) (UserCreate_PasswordHash c)
               (UserCreate_Role c) (UserCreate_CreatedAt c)])%list).

(** Modelled from the spec: the implementation of
    [TokenRepository.GetByUserID] is not part of the service files; the spec
    gives it as [GetByUserID(id) -> RefreshToken | NotFound]. *)
Definition tokens_GetByUserID (ts : list domain.RefreshToken) (id : ID)
  : domain.RefreshToken * option error :=
  match find (fun t => (RefreshToken_UserID t =? id)%N) ts with
  | Some t => (t, None)
  | None => (RefreshToken_zero, Some ErrNotFound)
  end.

(** Modelled from the spec: the implementation of
    [TokenRepository.CreateOrUpdate] is not part of the service files; the
    spec gives it create-or-update semantics: the row of the user is
    replaced when there is one and added when there is none. *)
Fixpoint tokens_CreateOrUpdate (ts : list domain.RefreshToken)
  (t : domain.RefreshToken) : list domain.RefreshToken :=
  match ts with
  | [] => [t]
  | x :: rest =>
      if (RefreshToken_UserID x =? RefreshToken_UserID t)%N
      then t :: rest
      else x :: tokens_CreateOrUpdate rest t
  end.

(** The refresh tokens stored for a user, and the table having at most one
    of them for every user. *)
Definition stored (ts : list domain.RefreshToken) (id : ID)
  : list domain.RefreshToken :=
  filter (fun t => (RefreshToken_UserID t =? id)%N) ts.

Definition at_most_one (ts : list domain.RefreshToken) : Prop :=
  forall id : ID, length (stored ts id) <= 1.

Section World.

(** The state of everything that is not a repository table: JWT manager,
    password hashing, clock, and the faults of the database. *)
Variable E : Type.

Record World : Type := mkWorld {
  ext : E;
  users : list User;
  tokens : list domain.RefreshToken
}.

(** [env] answers the calls on the JWT manager, on package hash and on the
    clock.  It is also asked before every repository call: when it answers
    with an error the repository call fails with that error and leaves the
    tables as they are, otherwise the table operation is carried out. *)
Variable env : Handler Call E.

(** Modelled from the spec: the repositories behind the two interfaces are
    not part of the service files; they are tables of users and of refresh
    tokens with the operations above. *)
Definition handle : Handler Call World :=
  fun (X : Type) (c : Call X) (w : World) =>
    let '(x, e) := env X c (ext w) in
    let w' := mkWorld e (users w) (tokens w) in
    match c in Call X return X -> X * World with
    | UserRepo_GetByUsername username => fun x =>
        match snd x with
        | Some _ => (x, w')
        | None => (users_GetByUsername (users w) username, w')
        end
    | UserRepo_GetByID id => fun x =>
        match snd x with
        | Some _ => (x, w')
        | None => (users_GetByID (users w) id, w')
        end
    | UserRepo_Create user => fun x =>
        match snd x with
        | Some _ => (x, w')
        | None =>
            let '(r, us) := users_Create (users w) user in
            (r, mkWorld e us (tokens w))
        end
    | TokenRepo_GetByUserID id => fun x =>
        match snd x with
        | Some _ => (x, w')
        | None => (tokens_GetByUserID (tokens w) id, w')
        end
    | TokenRepo_CreateOrUpdate t => fun x =>
        match x with
        | Some _ => (x, w')
        | None =>
            (None, mkWorld e (users w) (tokens_CreateOrUpdate (tokens w) t))
        end
    | _ => fun x => (x, w')
    end x.

(** The operations of the service, and a sequence of them run in order. *)
Inductive Op : Type :=
| OpLogin (username password : string)
| OpRegister (username password : string)
| OpRefreshToken (refreshToken : string)
| OpGetUserFromAccessToken (accessToken : string).

Definition exec (s : AuthService) (op : Op) (w : World) : World :=
  match op with
  | OpLogin username password =>
      final (run handle (Login s username password) w)
  | OpRegister username password =>
      final (run handle (Register s username password) w)
  | OpRefreshToken t => final (run handle (RefreshToken s t) w)
  | OpGetUserFromAccessToken t =>
      final (run handle (GetUserFromAccessToken s t) w)
  end.

Definition exec_all (s : AuthService) (ops : list Op) (w : World) : World :=
  fold_left (fun w op => exec s op w) ops w.

(** The token pair and error an operation that issues tokens returns, and
    the calls it makes. *)
Definition issue (s : AuthService) (op : Op) (w : World)
  : option ((TokenPair * option error) * list (Event Call)) :=
  match op with
  | OpLogin username password =>
      let r := run handle (Login s username password) w in
      Some (result r, trace r)
  | OpRegister username password =>
      let r := run handle (Register s username password) w in
      Some (result r, trace r)
  | OpRefreshToken t =>
      let r := run handle (RefreshToken s t) w in
      Some (result r, trace r)
  | OpGetUserFromAccessToken _ => None
  end.

End World.

Arguments mkWorld {E} ext users tokens.
Arguments ext {E} w.
Arguments users {E} w.
Arguments tokens {E} w.
Arguments handle {E} env X c w.
Arguments exec {E} env s op w.
Arguments exec_all {E} env s ops w.
Arguments issue {E} env s op w.

End memory.

(** ** A concrete environment

    One user, "alice" with ID 1, whose tokens are the strings "R1", "R2",
    ... and "A2", "A3", ...; the state counts the token pairs issued so
    far.  The faults say after how many issued pairs the JWT manager stops
    signing and the database stops answering reads or writes. *)
Module example.
Import auth memory.

Record Faults : Type := mkFaults {
  sign_limit : nat;
  read_limit : nat;
  write_limit : nat
}.

Definition no_faults : Faults := mkFaults 9 9 9.

Definition connection_refused : error := Foreign "connection refused".
Definition key_unavailable : error := Foreign "signing key unavailable".
Definition malformed : error := Foreign "token is malformed".

(** A service works while fewer than [limit] pairs have been issued. *)
Definition down (n limit : nat) : option error :=
  if (n <? limit)%nat then None else Some connection_refused.

Definition env (f : Faults) : Handler Call nat :=
  fun (X : Type) (c : Call X) (n : nat) =>
    match c in Call X return X * nat with
    | ParseAccessToken t =>
        (if existsb (String.eqb t) ["A2"; "A3"; "A4"]
         then (1%N, None) else (0%N, Some malformed), n)
    | ParseRefreshToken t =>
        (if existsb (String.eqb t) ["R1"; "R2"; "R3"; "R4"]
         then (1%N, None) else (0%N, Some malformed), n)
    | GenerateAccessToken _ =>
        if (n <? sign_limit f)%nat
        then ((nth n ["A2"; "A3"; "A4"] "A", None), n)
        else (("", Some key_unavailable), n)
    | GenerateRefreshToken _ =>
        if (n <? sign_limit f)%nat
        then ((nth n ["R2"; "R3"; "R4"] "R", None), S n)
        else (("", Some key_unavailable), n)
    | UserRepo_GetByUsername _ => ((User_zero, down n (read_limit f)), n)
    | UserRepo_GetByID _ => ((User_zero, down n (read_limit f)), n)
    | UserRepo_Create _ => ((0%N, down n (write_limit f)), n)
    | TokenRepo_GetByUserID _ =>
        ((RefreshToken_zero, down n (read_limit f)), n)
    | TokenRepo_CreateOrUpdate _ => (down n (write_limit f), n)
    | HashPassword password salt => ((salt ++ password, None), n)
    | VerifyPassword password hash salt =>
        ((hash =? salt ++ password)%string, n)
    | TimeNow => (N.of_nat (100 + n)%nat, n)
    end.

Definition svc : AuthService := NewAuthService "pepper".

Definition alice : User := mkUser 1%N "alice" "pepperpw1" RoleStudent 7%N.

(** alice is registered and holds the refresh token "R1". *)
Definition world0 : World nat :=
  mkWorld 0%nat [alice] [mkRefreshToken 1%N "R1" 50%N].

(** alice is registered and has no session. *)
Definition world_no_session : World nat := mkWorld 0%nat [alice] [].

(** A class repository with the DTOs and views taken as strings: every
    class belongs to schedule 10, every schedule to user 1, and the view
    query gives up after its first row. *)
Definition class_repo : Handler (class.Call string string string) unit :=
  fun (X : Type) (c : class.Call string string string X) (w : unit) =>
    match c in class.Call _ _ _ X return X * unit with
    | class.Repo_CreateOrSplit _ => ((1%N, None), w)
    | class.Repo_GetByID _ => ((mkClass 10, None), w)
    | class.Repo_GetAllViews _ =>
        ((["algebra"], 1%N, Some connection_refused), w)
    | class.Repo_UpdateOrSwitch _ _ _ => (None, w)
    | class.Repo_Delete _ => (None, w)
    | class.ScheduleRepo_GetByID _ => ((mkSchedule 1, None), w)
    end.

End example.

(** ** Statements about a run of the service *)
Module contract.
Import auth events.

Section Generic.

Context {W : Type} (h : Handler Call W) (s : AuthService).

(** The run returned a token pair and a nil error, and ended with the four
    calls that generate that pair for [u] and persist its refresh token. *)
Definition issued_and_persisted (u : ID)
  (r : (TokenPair * option error) * W * list (Event Call)) : Prop :=
  snd (result r) = None /\
  exists prefix tl : list (Event Call),
    trace r = (prefix ++ tl)%list /\ issues_tokens u (fst (result r)) tl.

(** The three cases of [RefreshToken] for a token that parses, read as an
    exhaustive case distinction: no stored token, a stored token that
    differs, and otherwise a new pair. *)
Definition RefreshToken_three_cases (t : string) (w : W) : Prop :=
  forall (u : ID) (w1 w2 : W) (st : domain.RefreshToken) (gerr : option error),
    h _ (ParseRefreshToken t) w = ((u, None), w1) ->
    h _ (TokenRepo_GetByUserID u) w1 = ((st, gerr), w2) ->
    let r := run h (RefreshToken s t) w in
    let absent := exists e, gerr = Some e /\ errors_Is e NotFound = true in
    let differs := gerr = None /\ RefreshToken_RefreshToken st <> t in
    (absent -> result r = (TokenPair_zero, Some ErrUserNotFound)) /\
    (differs -> result r = (TokenPair_zero, Some ErrInvalidRefreshToken)) /\
    (~ absent -> ~ differs -> issued_and_persisted u r).

End Generic.

Section Stored.

Import memory.
Context {E : Type} (env : Handler Call E) (s : AuthService).

(** The user an operation that issues tokens is about, as the calls of
    its run show: the user found by name, the user created, the user the
    presented token parsed to. *)
Definition subject (op : Op) (u : ID) (tr : list (Event Call)) : Prop :=
  match op with
  | OpLogin username _ => Exists (found username u) tr
  | OpRegister username _ => Exists (created username u) tr
  | OpRefreshToken t => Exists (parsed t u) tr
  | OpGetUserFromAccessToken _ => False
  end.

(** Asked in world [w], the JWT manager does not parse [t] to a user other
    than [u]. *)
Definition not_attributed_elsewhere (t : string) (u : ID) (w : World E)
  : Prop :=
  forall u' : ID,
    fst (env _ (ParseRefreshToken t) (ext w)) = (u', None) -> u' = u.

(** After a successful refresh of [R1] that returned another refresh token,
    [R1] is refused and the new token is accepted, without any condition
    on the collaborators. *)
Definition superseded_unconditionally (w : World E) (R1 : string) : Prop :=
  forall p2 : TokenPair,
    result (run (handle env) (RefreshToken s R1) w) = (p2, None) ->
    TokenPair_RefreshToken p2 <> R1 ->
    let w1 := final (run (handle env) (RefreshToken s R1) w) in
    result (run (handle env) (RefreshToken s R1) w1)
    = (TokenPair_zero, Some ErrInvalidRefreshToken) /\
    snd (result (run (handle env)
                   (RefreshToken s (TokenPair_RefreshToken p2)) w1)) = None.

(** Every refresh token in the table belongs to a stored user. *)
Definition tokens_of_users (w : World E) : Prop :=
  forall t : domain.RefreshToken,
    In t (tokens w) ->
    exists usr : User, In usr (users w) /\ User_ID usr = RefreshToken_UserID t.

End Stored.

End contract.

(** ** Kinds of calls *)
Module calls.
Import auth events.

(** The call writes to a repository: a user is created or a refresh token
    is created or updated. *)
Definition is_user_write {X : Type} (c : Call X) : bool :=
  match c with
  | UserRepo_Create _ => true
  | _ => false
  end.

Definition is_token_write {X : Type} (c : Call X) : bool :=
  match c with
  | TokenRepo_CreateOrUpdate _ => true
  | _ => false
  end.

Definition is_user_read {X : Type} (c : Call X) : bool :=
  match c with
  | UserRepo_GetByUsername _ | UserRepo_GetByID _ => true
  | _ => false
  end.

(** The call asks the JWT manager for a new token, or to parse one. *)
Definition is_generate {X : Type} (c : Call X) : bool :=
  match c with
  | GenerateAccessToken _ | GenerateRefreshToken _ => true
  | _ => false
  end.

Definition is_parse {X : Type} (c : Call X) : bool :=
  match c with
  | ParseAccessToken _ | ParseRefreshToken _ => true
  | _ => false
  end.

(** The call goes to package hash. *)
Definition is_hash {X : Type} (c : Call X) : bool :=
  match c with
  | HashPassword _ _ | VerifyPassword _ _ _ => true
  | _ => false
  end.

Definition on_user_write (e : Event Call) : bool :=
  match e with Ev c _ => is_user_write c end.
Definition on_token_write (e : Event Call) : bool :=
  match e with Ev c _ => is_token_write c end.
Definition on_user_read (e : Event Call) : bool :=
  match e with Ev c _ => is_user_read c end.
Definition on_generate (e : Event Call) : bool :=
  match e with Ev c _ => is_generate c end.
Definition on_parse (e : Event Call) : bool :=
  match e with Ev c _ => is_parse c end.
Definition on_hash (e : Event Call) : bool :=
  match e with Ev c _ => is_hash c end.

(** The call is one of those by which tokens are issued: a generation or a
    write of a refresh token. *)
Definition on_issue (e : Event Call) : bool :=
  on_generate e || on_token_write e.

(** A generation, or a write of a refresh token, that returned an error. *)
Definition issue_failed (e : Event Call) : bool :=
  on_issue e && failed e.

End calls.

(** ** Kinds of calls of the class service *)
Module class_calls.

Section Kinds.

Variables CreateClassDTO UpdateClassDTO ClassView : Type.
Let Call := class.Call CreateClassDTO UpdateClassDTO ClassView.

Definition on_schedule_repo (e : Event Call) : bool :=
  match e with
  | Ev (class.ScheduleRepo_GetByID _) _ => true
  | Ev _ _ => false
  end.

End Kinds.

Arguments on_schedule_repo {CreateClassDTO UpdateClassDTO ClassView} e.

End class_calls.

(** ** Collaborators that are out of order *)
Module outage.
Import auth.

(** Every call that can fail does fail, with "connection refused". *)
Definition broken : Handler Call unit :=
  fun (X : Type) (c : Call X) (w : unit) =>
    match c in Call X return X * unit with
    | ParseAccessToken _ => ((0%N, Some example.connection_refused), w)
    | ParseRefreshToken _ => ((0%N, Some example.connection_refused), w)
    | GenerateAccessToken _ => (("", Some example.connection_refused), w)
    | GenerateRefreshToken _ => (("", Some example.connection_refused), w)
    | UserRepo_GetByUsername _ =>
        ((User_zero, Some example.connection_refused), w)
    | UserRepo_GetByID _ => ((User_zero, Some example.connection_refused), w)
    | UserRepo_Create _ => ((0%N, Some example.connection_refused), w)
    | TokenRepo_GetByUserID _ =>
        ((RefreshToken_zero, Some example.connection_refused), w)
    | TokenRepo_CreateOrUpdate _ => (Some example.connection_refused, w)
    | HashPassword _ _ => (("", Some example.connection_refused), w)
    | VerifyPassword _ _ _ => (false, w)
    | TimeNow => (0%N, w)
    end.

(** A class repository whose lookup of the class works or not, and a
    schedule repository that is down. *)
Definition schedules_down (class_found : bool)
  : Handler (class.Call string string string) unit :=
  fun (X : Type) (c : class.Call string string string X) (w : unit) =>
    match c in class.Call _ _ _ X return X * unit with
    | class.Repo_CreateOrSplit _ =>
        ((5%N, Some example.connection_refused), w)
    | class.Repo_GetByID _ =>
        ((mkClass 10,
          if class_found then None else Some ErrNotFound), w)
    | class.Repo_GetAllViews _ => (([], 0%N, None), w)
    | class.Repo_UpdateOrSwitch _ _ _ => (None, w)
    | class.Repo_Delete _ => (None, w)
    | class.ScheduleRepo_GetByID _ =>
        ((mkSchedule 0, Some example.connection_refused), w)
    end.

End outage.

(* ================================================================= *)
(** * Part II: properties *)

(** ** Running programs *)
Section RunLemmas.

Context {C : Type -> Type} {W : Type} (h : Handler C W).

Lemma run_bind {A B : Type} (p : Prog C A) (f : A -> Prog C B) (w : W) :
  run h (bind p f) w =
  let '(a, w1, tr1) := run h p w in
  let '(b, w2, tr2) := run h (f a) w1 in
  (b, w2, (tr1 ++ tr2)%list).
Proof.
  revert w. induction p as [a | X c k IH]; intros w; simpl.
  - destruct (run h (f a) w) as [[b w2] tr2]. reflexivity.
  - destruct (h X c w) as [x w1]. rewrite IH.
    destruct (run h (k x) w1) as [[a w2] tr1].
    destruct (run h (f a) w2) as [[b w3] tr2]. reflexivity.
Qed.

Lemma run_call {X : Type} (c : C X) (w : W) :
  run h (call c) w = (fst (h X c w), snd (h X c w), [Ev c (fst (h X c w))]).
Proof. simpl. destruct (h X c w) as [x w1]. reflexivity. Qed.

(** A property of the state that every call keeps holds after a run. *)
Lemma run_preserves (P : W -> Prop) :
  (forall (X : Type) (c : C X) (w : W), P w -> P (snd (h X c w))) ->
  forall (A : Type) (p : Prog C A) (w : W), P w -> P (final (run h p w)).
Proof.
  intros Hstep A p. induction p as [a | X c k IH]; intros w Hw; simpl.
  - exact Hw.
  - specialize (Hstep X c w Hw). destruct (h X c w) as [x w1]. simpl in Hstep.
    specialize (IH x w1 Hstep).
    destruct (run h (k x) w1) as [[a w2] tr]. exact IH.
Qed.

End RunLemmas.

(** Names the answer of the next collaborator call in the goal. *)
Ltac next_call h :=
  match goal with
  | |- context [h ?X ?c ?w] =>
      let x := fresh "x" in
      let w' := fresh "w" in
      let E := fresh "E" in
      destruct (h X c w) as [x w'] eqn:E; simpl in *
  end.

(** Same, and splits the answer into its value and its error. *)
Ltac step h :=
  next_call h;
  repeat match goal with
         | x : (_ * _)%type |- _ => destruct x
         | x : option error |- _ => destruct x
         end;
  simpl in *.

(** Follows a run against the in-memory repositories to its end: through
    every answer of the environment, every table lookup and every test. *)
Ltac walk_mem env :=
  repeat first
    [ step env
    | match goal with
      | |- context [memory.tokens_GetByUserID ?ts ?id] =>
          let st := fresh "st" in
          let ge := fresh "ge" in
          destruct (memory.tokens_GetByUserID ts id) as [st ge] eqn:?;
          try destruct ge; simpl in *
      | |- context [memory.users_GetByUsername ?us ?n] =>
          let usr := fresh "usr" in
          let ge := fresh "ge" in
          destruct (memory.users_GetByUsername us n) as [usr ge] eqn:?;
          try destruct ge; simpl in *
      | |- context [memory.users_Create ?us ?c] =>
          let id := fresh "id" in
          let ge := fresh "ge" in
          let us' := fresh "us" in
          destruct (memory.users_Create us c) as [[id ge] us'] eqn:?;
          try destruct ge; simpl in *
      | |- context [if ?b then _ else _] => destruct b eqn:?; simpl in *
      end ].

(** Takes apart the facts known about the events of an explicit list of
    calls and drops the cases that cannot be. *)
Ltac trace_cases :=
  repeat match goal with
         | H : Exists _ (_ :: _) |- _ => rewrite Exists_cons in H; simpl in H
         | H : Exists _ [] |- _ => apply Exists_nil in H
         | H : False |- _ => destruct H
         | H : _ \/ _ |- _ => destruct H
         | H : _ /\ _ |- _ => destruct H
         | H : (_, _) = (_, _) |- _ => inversion H; clear H; subst
         | H : Some _ = None |- _ => discriminate H
         | H : None <> None |- _ => destruct (H eq_refl)
         end.

(** Follows a run to its end through every answer and every test. *)
Ltac walk h :=
  repeat first
    [ step h
    | match goal with
      | |- context [if ?b then _ else _] => destruct b eqn:?; simpl in *
      end ].

(** ** AuthService.Login *)
Section LoginProperties.

Import auth events.
Context {W : Type} (h : Handler Call W) (s : AuthService).

(** C3.  When the lookup of the username reports NotFound, or the user is
    found and the verification of the password against the stored hash
    fails, [Login] returns the zero token pair and exactly
    [ErrInvalidLoginOrPassword]: one and the same error value in both
    cases. *)
Theorem Login_invalid_credentials
  (username password : string) (w w1 : W) (user : User) (err : option error) :
  h _ (UserRepo_GetByUsername username) w = ((user, err), w1) ->
  (exists e, err = Some e /\ errors_Is e NotFound = true) \/
  (err = None /\
   fst (h _ (VerifyPassword password (User_PasswordHash user) (passwordSalt s))
          w1) = false) ->
  result (run h (Login s username password) w)
  = (TokenPair_zero, Some ErrInvalidLoginOrPassword).
Proof.
  intros Hget Hcase. unfold Login. simpl. rewrite Hget.
  destruct Hcase as [(e & -> & Hnf) | (-> & Hver)].
  - simpl. rewrite Hnf. reflexivity.
  - simpl. next_call h. simpl in Hver. subst x. reflexivity.
Qed.

(** C7.  What the code does when the lookup of the username fails with an
    error that is not NotFound: [Login] returns that very error, as the
    repository gave it, and makes no further call. *)
Theorem Login_lookup_error_returned_raw
  (username password : string) (w w1 : W) (user : User) (e : error) :
  h _ (UserRepo_GetByUsername username) w = ((user, Some e), w1) ->
  errors_Is e NotFound = false ->
  run h (Login s username password) w
  = ((TokenPair_zero, Some e), w1,
     [Ev (UserRepo_GetByUsername username) (user, Some e)]).
Proof.
  intros Hget Hnf. unfold Login. simpl. rewrite Hget. simpl.
  rewrite Hnf. reflexivity.
Qed.

End LoginProperties.

(** ** AuthService.GetUserFromAccessToken *)
Section GetUserProperties.

Import auth events.
Context {W : Type} (h : Handler Call W) (s : AuthService).

(** C4.  What the code does.  [GetUserFromAccessToken] fails with
    [ErrInvalidAccessToken] when the parse fails, and only then.  When the
    token parses to a user ID and the lookup of that user fails with any
    error at all, NotFound or not, the error is dropped and
    [ErrUserNotFound] is returned in its place; when the lookup succeeds
    the user is returned. *)
Theorem GetUserFromAccessToken_outcomes
  (accessToken : string) (w w1 w2 : W) (userID : ID) (perr : option error)
  (user : User) (gerr : option error) :
  h _ (ParseAccessToken accessToken) w = ((userID, perr), w1) ->
  h _ (UserRepo_GetByID userID) w1 = ((user, gerr), w2) ->
  let r := run h (GetUserFromAccessToken s accessToken) w in
  (perr <> None <-> result r = (User_zero, Some ErrInvalidAccessToken)) /\
  (perr = None -> gerr <> None ->
   result r = (User_zero, Some ErrUserNotFound)) /\
  (perr = None -> gerr = None -> result r = (user, None)).
Proof.
  intros Hparse Hget. unfold GetUserFromAccessToken. simpl.
  rewrite Hparse. simpl.
  destruct perr as [pe|]; simpl.
  - split; [|split].
    + split; [reflexivity|discriminate].
    + discriminate.
    + discriminate.
  - rewrite Hget. simpl. destruct gerr as [ge|]; simpl.
    + split; [|split].
      * split; [intros H; contradiction|discriminate].
      * reflexivity.
      * discriminate.
    + split; [|split].
      * split; [intros H; contradiction|discriminate].
      * intros _ H; contradiction.
      * reflexivity.
Qed.

End GetUserProperties.

(** ** AuthService.RefreshToken *)
Section RefreshTokenProperties.

Import auth events contract.
Context {W : Type} (h : Handler Call W) (s : AuthService).

(** C6.  When the JWT manager fails to parse the presented token,
    [RefreshToken] returns [ErrInvalidRefreshToken]; the parse is the only
    call it makes, so the token repository is neither read nor written and
    the state is the one the parse left. *)
Theorem RefreshToken_unparsable
  (t : string) (w w1 : W) (u : ID) (e : error) :
  h _ (ParseRefreshToken t) w = ((u, Some e), w1) ->
  run h (RefreshToken s t) w
  = ((TokenPair_zero, Some ErrInvalidRefreshToken), w1,
     [Ev (ParseRefreshToken t) (u, Some e)]) /\
  existsb on_token_repo (trace (run h (RefreshToken s t) w)) = false.
Proof.
  intros Hparse. unfold RefreshToken. simpl. rewrite Hparse. simpl.
  split; reflexivity.
Qed.

(** C1, amended.  For a token that parses to [u]: [RefreshToken] fails with
    [ErrUserNotFound] when the lookup of the stored token reports NotFound;
    fails with [ErrInvalidRefreshToken] when the stored token string differs
    from the presented one; and otherwise, provided no collaborator call of
    the run fails, returns the pair it has just generated for [u] and
    writes that pair's refresh token for [u].  When a call does fail in
    that last case the result is a ServiceError. *)
Theorem RefreshToken_cases
  (t : string) (w w1 w2 : W) (u : ID) (st : domain.RefreshToken)
  (gerr : option error) :
  h _ (ParseRefreshToken t) w = ((u, None), w1) ->
  h _ (TokenRepo_GetByUserID u) w1 = ((st, gerr), w2) ->
  let r := run h (RefreshToken s t) w in
  let absent := exists e, gerr = Some e /\ errors_Is e NotFound = true in
  let differs := gerr = None /\ RefreshToken_RefreshToken st <> t in
  (absent -> result r = (TokenPair_zero, Some ErrUserNotFound)) /\
  (differs -> result r = (TokenPair_zero, Some ErrInvalidRefreshToken)) /\
  (~ absent -> ~ differs ->
   existsb failed (trace r) = false -> issued_and_persisted u r) /\
  (~ absent -> ~ differs ->
   existsb failed (trace r) = true ->
   exists e, snd (result r) = Some e /\ isServiceError e = true).
Proof.
  intros Hparse Hget r absent differs. subst r absent differs.
  unfold RefreshToken, generateTokenPair. simpl. rewrite Hparse. simpl.
  rewrite Hget. simpl.
  destruct gerr as [e|].
  - (* the lookup failed *)
    destruct (errors_Is e NotFound) eqn:Hnf; simpl;
      (split; [|split; [|split]]).
    + reflexivity.
    + intros [Hd _]; discriminate.
    + intros Hna. exfalso. apply Hna. exists e. auto.
    + intros Hna. exfalso. apply Hna. exists e. auto.
    + intros (e' & He & Hnf'). inversion He; subst. congruence.
    + intros [Hd _]; discriminate.
    + intros _ _ Hf. discriminate.
    + intros _ _ _. eexists. split; reflexivity.
  - destruct (String.eqb_spec (RefreshToken_RefreshToken st) t) as [Heq|Hne];
      simpl.
    + (* the stored token is the presented one *)
      repeat step h;
        (split; [|split; [|split]];
         [ intros (e' & He & _); discriminate
         | intros [_ Hd]; congruence
         | intros _ _ Hf; try discriminate
         | intros _ _ Hf; try discriminate; eexists; split; reflexivity ]).
      split; [reflexivity|].
      eexists [_; _], _. split; [reflexivity|].
      eexists _, _, _. split; reflexivity.
    + split; [|split; [|split]].
      * intros (e' & He & _); discriminate.
      * reflexivity.
      * intros _ Hnd. exfalso. tauto.
      * intros _ Hnd. exfalso. tauto.
Qed.

End RefreshTokenProperties.

(** ** AuthService.Register *)
Section RegisterProperties.

Import auth events contract.
Context {W : Type} (h : Handler Call W) (s : AuthService).

(** C5.  [Register] first hashes the password with the service's salt.
    With the hash it reads the clock and asks the user repository to create
    the user with that hash, the role "student" and that timestamp; when
    the repository answers AlreadyExists it returns
    [ErrUsernameAlreadyTaken].  When [Register] succeeds the user was
    created, and the run returned the pair generated for the new ID and
    ended by persisting its refresh token; a successful [Login] returns and
    persists in the very same way for the ID of the user it found.  And
    succeed they do: once the user is created, [Register] generates the
    pair for the new ID, writes its refresh token and returns the pair
    whenever these calls answer without error, and so does [Login] once
    the user is found and the password verified; in particular neither
    fails in a run in which no call failed. *)
Theorem Register_steps (username password : string) (w : W) :
  let r := run h (Register s username password) w in
  let hashed := fst (h _ (HashPassword password (passwordSalt s)) w) in
  (exists tl,
     trace r = Ev (HashPassword password (passwordSalt s)) hashed :: tl) /\
  (forall (passwordHash : string) (w1 : W),
     h _ (HashPassword password (passwordSalt s)) w
     = ((passwordHash, None), w1) ->
     let now := fst (h _ TimeNow w1) in
     let user := mkUserCreate username passwordHash RoleStudent now in
     let answer := fst (h _ (UserRepo_Create user) (snd (h _ TimeNow w1))) in
     (exists tl : list (Event Call),
        trace r
        = Ev (HashPassword password (passwordSalt s)) (passwordHash, None)
          :: Ev TimeNow now :: Ev (UserRepo_Create user) answer :: tl) /\
     (forall e, snd answer = Some e -> errors_Is e AlreadyExists = true ->
                result r = (TokenPair_zero, Some ErrUsernameAlreadyTaken))) /\
  (snd (result r) = None ->
   exists id : ID,
     Exists (created username id) (trace r) /\ issued_and_persisted id r) /\
  (forall w' : W,
     let l := run h (Login s username password) w' in
     snd (result l) = None ->
     exists user : User,
       fst (h _ (UserRepo_GetByUsername username) w') = (user, None) /\
       issued_and_persisted (User_ID user) l) /\
  (forall (passwordHash accessToken refreshToken : string) (now now' : Time)
          (id : ID) (w1 w2 w3 w4 w5 w6 w7 : W),
     h _ (HashPassword password (passwordSalt s)) w
     = ((passwordHash, None), w1) ->
     h _ TimeNow w1 = (now, w2) ->
     h _ (UserRepo_Create (mkUserCreate username passwordHash RoleStudent now))
       w2 = ((id, None), w3) ->
     h _ (GenerateAccessToken id) w3 = ((accessToken, None), w4) ->
     h _ (GenerateRefreshToken id) w4 = ((refreshToken, None), w5) ->
     h _ TimeNow w5 = (now', w6) ->
     h _ (TokenRepo_CreateOrUpdate (mkRefreshToken id refreshToken (UTC now')))
       w6 = (None, w7) ->
     r = ((NewTokenPair accessToken refreshToken, None), w7,
          [Ev (HashPassword password (passwordSalt s)) (passwordHash, None);
           Ev TimeNow now;
           Ev (UserRepo_Create
                 (mkUserCreate username passwordHash RoleStudent now))
              (id, None);
           Ev (GenerateAccessToken id) (accessToken, None);
           Ev (GenerateRefreshToken id) (refreshToken, None);
           Ev TimeNow now';
           Ev (TokenRepo_CreateOrUpdate
                 (mkRefreshToken id refreshToken (UTC now'))) None])) /\
  (forall (user : User) (accessToken refreshToken : string) (now' : Time)
          (w' w1 w2 w3 w4 w5 w6 : W),
     h _ (UserRepo_GetByUsername username) w' = ((user, None), w1) ->
     h _ (VerifyPassword password (User_PasswordHash user) (passwordSalt s)) w1
     = (true, w2) ->
     h _ (GenerateAccessToken (User_ID user)) w2 = ((accessToken, None), w3) ->
     h _ (GenerateRefreshToken (User_ID user)) w3
     = ((refreshToken, None), w4) ->
     h _ TimeNow w4 = (now', w5) ->
     h _ (TokenRepo_CreateOrUpdate
            (mkRefreshToken (User_ID user) refreshToken (UTC now')))
       w5 = (None, w6) ->
     run h (Login s username password) w'
     = ((NewTokenPair accessToken refreshToken, None), w6,
        [Ev (UserRepo_GetByUsername username) (user, None);
         Ev (VerifyPassword password (User_PasswordHash user) (passwordSalt s))
            true;
         Ev (GenerateAccessToken (User_ID user)) (accessToken, None);
         Ev (GenerateRefreshToken (User_ID user)) (refreshToken, None);
         Ev TimeNow now';
         Ev (TokenRepo_CreateOrUpdate
               (mkRefreshToken (User_ID user) refreshToken (UTC now')))
            None])) /\
  (existsb failed (trace r) = false -> snd (result r) = None) /\
  (forall w' : W,
     let l := run h (Login s username password) w' in
     existsb failed (trace l) = false ->
     snd (result l) = None \/
     result l = (TokenPair_zero, Some ErrInvalidLoginOrPassword) /\
     exists user : User,
       fst (h _ (UserRepo_GetByUsername username) w') = (user, None) /\
       fst (h _ (VerifyPassword password (User_PasswordHash user)
                   (passwordSalt s))
              (snd (h _ (UserRepo_GetByUsername username) w'))) = false).
Proof.
  intros r hashed. subst r hashed.
  split; [|split; [|split; [|split; [|split; [|split; [|split]]]]]].
  - unfold Register, generateTokenPair. simpl.
    walk h; eexists; reflexivity.
  - intros ph w1 Hh. unfold Register, generateTokenPair. simpl.
    rewrite Hh. simpl.
    walk h; (split; [eexists; reflexivity|]);
      intros e' He' Hae'; try discriminate; inversion He'; subst;
      first [reflexivity | congruence].
  - unfold Register, generateTokenPair. simpl.
    walk h; intros Hok; try discriminate.
    eexists. split.
    + apply Exists_cons_tl, Exists_cons_tl, Exists_cons_hd. simpl. auto.
    + split; [reflexivity|]. simpl.
      eexists [_; _; _], _. split; [reflexivity|].
      eexists _, _, _. split; reflexivity.
  - intros w'. unfold Login, generateTokenPair. simpl.
    walk h; intros Hok; try discriminate.
    eexists. split; [reflexivity|].
    split; [reflexivity|]. simpl.
    eexists [_; _], _. split; [reflexivity|].
    eexists _, _, _. split; reflexivity.
  - intros ph a rt now now' id w1 w2 w3 w4 w5 w6 w7
      Hhash Hnow Hcreate Hga Hgr Hnow' Hwrite.
    unfold Register, generateTokenPair. simpl.
    rewrite Hhash. simpl. rewrite Hnow. simpl. rewrite Hcreate. simpl.
    rewrite Hga. simpl. rewrite Hgr. simpl. rewrite Hnow'. simpl.
    rewrite Hwrite. reflexivity.
  - intros user a rt now' w' w1 w2 w3 w4 w5 w6
      Hget Hverify Hga Hgr Hnow' Hwrite.
    unfold Login, generateTokenPair. simpl.
    rewrite Hget. simpl. rewrite Hverify. simpl.
    rewrite Hga. simpl. rewrite Hgr. simpl. rewrite Hnow'. simpl.
    rewrite Hwrite. reflexivity.
  - unfold Register, generateTokenPair. simpl.
    walk h; intros Hnone; try discriminate; reflexivity.
  - intros w'. unfold Login, generateTokenPair. simpl.
    walk h; intros Hnone; try discriminate;
      first [ left; reflexivity
            | right; split; [reflexivity|];
              eexists; split; [reflexivity|];
              match goal with
              | E : h _ (VerifyPassword _ _ _) _ = (?x, _) |- _ =>
                  rewrite E; destruct x; simpl in *; congruence
              end ].
Qed.

End RegisterProperties.

(** ** ClassService *)
Section ClassProperties.

Import class.
Context {CreateClassDTO UpdateClassDTO ClassView : Type} {W : Type}.
Let Call := class.Call CreateClassDTO UpdateClassDTO ClassView.
Context (h : Handler Call W).

(** C8.  When the class is found, its schedule is found and the schedule's
    owner is not the acting user, [Update] returns
    [ErrDontHavePermission] after the two lookups and calls no writing
    operation of the repository, [UpdateOrSwitch] in particular; [Delete]
    goes through the same check, [isScheduleOwner], with the same outcome
    and without calling [Delete] on the repository. *)
Theorem Update_Delete_not_owner
  (userID id : N) (update : UpdateClassDTO) (w w1 w2 : W)
  (entry : Class) (schedule : Schedule) :
  h _ (Repo_GetByID id) w = ((entry, None), w1) ->
  h _ (ScheduleRepo_GetByID (Class_ScheduleID entry)) w1
  = ((schedule, None), w2) ->
  Schedule_UserID schedule <> userID ->
  let lookups :=
    [Ev (Repo_GetByID id) (entry, None);
     Ev (ScheduleRepo_GetByID (Class_ScheduleID entry)) (schedule, None)] in
  run h (Update _ _ _ userID id update) w
  = (Some ErrDontHavePermission, w2, lookups) /\
  run h (isScheduleOwner _ _ _ userID id) w
  = (Some ErrDontHavePermission, w2, lookups) /\
  run h (Delete _ _ _ userID id) w
  = (Some ErrDontHavePermission, w2, lookups) /\
  existsb is_write lookups = false.
Proof.
  intros Hclass Hsched Hne lookups. subst lookups.
  apply N.eqb_neq in Hne.
  assert (Hown : run h (isScheduleOwner _ _ _ userID id) w
                 = (Some ErrDontHavePermission, w2,
                    [Ev (Repo_GetByID id) (entry, None);
                     Ev (ScheduleRepo_GetByID (Class_ScheduleID entry))
                       (schedule, None)])).
  { unfold isScheduleOwner. simpl. rewrite Hclass. simpl. rewrite Hsched.
    simpl. rewrite Hne. reflexivity. }
  split; [|split; [|split]].
  - unfold Update. simpl. rewrite Hclass. simpl. rewrite Hsched. simpl.
    rewrite Hne. reflexivity.
  - exact Hown.
  - unfold Delete. rewrite (run_bind h), Hown. reflexivity.
  - reflexivity.
Qed.

(** C10.  [GetAll] returns the slice the repository's view query returned
    together with the query's error: the same slice, unchanged, when the
    query failed (not an empty result) and when it succeeded. *)
Theorem GetAll_returns_repository_slice
  (scheduleID : N) (w w1 : W) (classes : list ClassView) (total : N)
  (err : option error) :
  h _ (Repo_GetAllViews scheduleID) w = ((classes, total, err), w1) ->
  run h (GetAll _ _ _ scheduleID) w
  = ((classes, err), w1,
     [Ev (Repo_GetAllViews scheduleID) (classes, total, err)]).
Proof.
  intros Hviews. unfold GetAll. simpl. rewrite Hviews.
  destruct err; reflexivity.
Qed.

End ClassProperties.

(** ** The token table *)
Section TokenTable.

Import memory.

Lemma stored_CreateOrUpdate_same (ts : list domain.RefreshToken)
  (t : domain.RefreshToken) :
  stored (tokens_CreateOrUpdate ts t) (RefreshToken_UserID t)
  = t :: tl (stored ts (RefreshToken_UserID t)).
Proof.
  unfold stored. induction ts as [|x rest IH]; simpl.
  - rewrite N.eqb_refl. reflexivity.
  - destruct (RefreshToken_UserID x =? RefreshToken_UserID t)%N eqn:Hx; simpl.
    + rewrite N.eqb_refl. reflexivity.
    + rewrite Hx. exact IH.
Qed.

Lemma stored_CreateOrUpdate_other (ts : list domain.RefreshToken)
  (t : domain.RefreshToken) (id : ID) :
  id <> RefreshToken_UserID t ->
  stored (tokens_CreateOrUpdate ts t) id = stored ts id.
Proof.
  intros Hne. unfold stored.
  assert (Ht : (RefreshToken_UserID t =? id)%N = false)
    by (apply N.eqb_neq; congruence).
  induction ts as [|x rest IH]; simpl.
  - rewrite Ht. reflexivity.
  - destruct (RefreshToken_UserID x =? RefreshToken_UserID t)%N eqn:Hx; simpl.
    + apply N.eqb_eq in Hx. rewrite Ht, Hx, Ht. reflexivity.
    + destruct (RefreshToken_UserID x =? id)%N; [f_equal|]; exact IH.
Qed.

Lemma at_most_one_CreateOrUpdate (ts : list domain.RefreshToken)
  (t : domain.RefreshToken) :
  at_most_one ts -> at_most_one (tokens_CreateOrUpdate ts t).
Proof.
  intros Hts id. destruct (N.eq_dec id (RefreshToken_UserID t)) as [->|Hne].
  - rewrite stored_CreateOrUpdate_same.
    specialize (Hts (RefreshToken_UserID t)).
    destruct (stored ts (RefreshToken_UserID t)) as [|a l]; simpl in *; lia.
  - rewrite stored_CreateOrUpdate_other by assumption. apply Hts.
Qed.

Lemma stored_CreateOrUpdate_only (ts : list domain.RefreshToken)
  (t : domain.RefreshToken) :
  at_most_one ts ->
  stored (tokens_CreateOrUpdate ts t) (RefreshToken_UserID t) = [t].
Proof.
  intros Hts. rewrite stored_CreateOrUpdate_same.
  specialize (Hts (RefreshToken_UserID t)).
  destruct (stored ts (RefreshToken_UserID t)) as [|a [|b l]]; simpl in *;
    try reflexivity; lia.
Qed.

Lemma GetByUserID_CreateOrUpdate (ts : list domain.RefreshToken)
  (t : domain.RefreshToken) :
  tokens_GetByUserID (tokens_CreateOrUpdate ts t) (RefreshToken_UserID t)
  = (t, None).
Proof.
  unfold tokens_GetByUserID. induction ts as [|x rest IH]; simpl.
  - rewrite N.eqb_refl. reflexivity.
  - destruct (RefreshToken_UserID x =? RefreshToken_UserID t)%N eqn:Hx; simpl.
    + rewrite N.eqb_refl. reflexivity.
    + rewrite Hx. exact IH.
Qed.

Lemma GetByUserID_found (ts : list domain.RefreshToken) (id : ID)
  (t : domain.RefreshToken) :
  tokens_GetByUserID ts id = (t, None) ->
  In t ts /\ RefreshToken_UserID t = id.
Proof.
  unfold tokens_GetByUserID.
  destruct (find _ ts) as [x|] eqn:Hfind; intros H; inversion H; subst.
  apply find_some in Hfind. destruct Hfind as [Hin Heq].
  apply N.eqb_eq in Heq. auto.
Qed.

End TokenTable.

(** ** The service over the in-memory repositories *)
Section StoreProperties.

Import auth events contract memory.
Context {E : Type} (env : Handler Call E) (s : AuthService).

Lemma handle_at_most_one (X : Type) (c : Call X) (w : World E) :
  at_most_one (tokens w) -> at_most_one (tokens (snd (handle env X c w))).
Proof.
  intros Hw. unfold handle.
  destruct (env X c (ext w)) as [x e].
  destruct c; simpl; try exact Hw;
    try (destruct (snd x); exact Hw).
  - destruct (snd x); [exact Hw|].
    destruct (users_Create (users w) user) as [r us]. exact Hw.
  - destruct x; [exact Hw|]. simpl.
    apply at_most_one_CreateOrUpdate, Hw.
Qed.

Lemma exec_at_most_one (op : Op) (w : World E) :
  at_most_one (tokens w) -> at_most_one (tokens (exec env s op w)).
Proof.
  intros Hw.
  destruct op; unfold exec;
    apply (run_preserves (handle env) (fun w => at_most_one (tokens w)));
    auto using handle_at_most_one.
Qed.

Lemma exec_all_at_most_one (ops : list Op) (w : World E) :
  at_most_one (tokens w) -> at_most_one (tokens (exec_all env s ops w)).
Proof.
  revert w. induction ops as [|op ops IH]; intros w Hw; simpl.
  - exact Hw.
  - apply IH, exec_at_most_one, Hw.
Qed.

(** A successful operation that issues tokens writes the refresh token it
    returns for the user it is about. *)
Lemma issue_overwrites (op : Op) (w : World E) (pair : TokenPair)
  (tr : list (Event Call)) :
  issue env s op w = Some ((pair, None), tr) ->
  exists (u : ID) (now : Time),
    subject op u tr /\
    tokens (exec env s op w)
    = tokens_CreateOrUpdate (tokens w)
        (mkRefreshToken u (TokenPair_RefreshToken pair) (UTC now)).
Proof.
  destruct op; simpl; try discriminate.
  - unfold Login, generateTokenPair, handle. simpl.
    walk_mem env; intros H; inversion H; subst; clear H.
    do 2 eexists. split; [|reflexivity].
    apply Exists_cons_hd. simpl.
    unfold users_GetByUsername in *.
    destruct (find _ (users w)); inversion Heqp; subst. auto.
  - unfold Register, generateTokenPair, handle. simpl.
    walk_mem env; intros H; inversion H; subst; clear H.
    do 2 eexists. split; [|reflexivity].
    apply Exists_cons_tl, Exists_cons_tl, Exists_cons_hd. simpl. auto.
  - unfold RefreshToken, generateTokenPair, handle. simpl.
    walk_mem env; intros H; inversion H; subst; clear H.
    do 2 eexists. split; [|reflexivity].
    apply Exists_cons_hd. simpl. auto.
Qed.

(** What a successful [RefreshToken] leaves behind. *)
Lemma RefreshToken_success_store (t : string) (w : World E) (pair : TokenPair) :
  result (run (handle env) (RefreshToken s t) w) = (pair, None) ->
  exists (u : ID) (now : Time) (e : E),
    fst (env _ (ParseRefreshToken t) (ext w)) = (u, None) /\
    final (run (handle env) (RefreshToken s t) w)
    = mkWorld e (users w)
        (tokens_CreateOrUpdate (tokens w)
           (mkRefreshToken u (TokenPair_RefreshToken pair) (UTC now))).
Proof.
  unfold RefreshToken, generateTokenPair, handle. simpl.
  walk_mem env; intros H; inversion H; subst; clear H.
  do 3 eexists. split; reflexivity.
Qed.

(** A token that differs from the one stored for its user is refused. *)
Lemma RefreshToken_stale (t : string) (u : ID) (w : World E)
  (st : domain.RefreshToken) :
  tokens_GetByUserID (tokens w) u = (st, None) ->
  RefreshToken_RefreshToken st <> t ->
  not_attributed_elsewhere env t u w ->
  existsb (fun e => on_token_repo e && failed e)
    (trace (run (handle env) (RefreshToken s t) w)) = false ->
  result (run (handle env) (RefreshToken s t) w)
  = (TokenPair_zero, Some ErrInvalidRefreshToken).
Proof.
  intros Hst Hne Hattr. unfold not_attributed_elsewhere in Hattr.
  unfold RefreshToken, generateTokenPair, handle. simpl.
  step env; [reflexivity|].
  specialize (Hattr _ eq_refl). subst i.
  step env; [walk_mem env; intros Hf; discriminate|].
  rewrite Hst. simpl.
  destruct (String.eqb_spec (RefreshToken_RefreshToken st) t) as [Heq|_];
    [contradiction|reflexivity].
Qed.

(** The token stored for its user is accepted: the refresh succeeds unless
    a collaborator call fails. *)
Lemma RefreshToken_current (t : string) (u : ID) (w : World E)
  (st : domain.RefreshToken) :
  tokens_GetByUserID (tokens w) u = (st, None) ->
  RefreshToken_RefreshToken st = t ->
  not_attributed_elsewhere env t u w ->
  existsb failed (trace (run (handle env) (RefreshToken s t) w)) = false ->
  issued_and_persisted u (run (handle env) (RefreshToken s t) w).
Proof.
  intros Hst Heq Hattr. unfold not_attributed_elsewhere in Hattr.
  unfold issued_and_persisted, RefreshToken, generateTokenPair, handle. simpl.
  step env; [intros Hf; discriminate|].
  specialize (Hattr _ eq_refl). subst i.
  step env; [walk_mem env; intros Hf; discriminate|].
  rewrite Hst. simpl. rewrite Heq, String.eqb_refl. simpl.
  walk_mem env; intros Hf; try discriminate.
  split; [reflexivity|].
  eexists [_; _], _. split; [reflexivity|].
  eexists _, _, _. split; reflexivity.
Qed.

(** C2, amended.  Over the in-memory token table: whatever operations are
    run, every user ID keeps at most one stored refresh token; every
    successful [Login], [Register] or [RefreshToken] replaces the token
    stored for its user by the refresh token it returns; and after a
    successful [RefreshToken] of [R1] that returned another refresh token
    [R2], presenting [R1] again fails with [ErrInvalidRefreshToken] and
    presenting [R2] succeeds -- as long as the JWT manager does not parse
    the presented token to another user and no collaborator call of that
    run fails (for [R1]: no call on the token repository). *)
Theorem refresh_token_per_user :
  (forall (ops : list Op) (w : World E),
     at_most_one (tokens w) -> at_most_one (tokens (exec_all env s ops w))) /\
  (forall (op : Op) (w : World E) (pair : TokenPair) (tr : list (Event Call)),
     issue env s op w = Some ((pair, None), tr) ->
     exists (u : ID) (now : Time),
       subject op u tr /\
       let t := mkRefreshToken u (TokenPair_RefreshToken pair) (UTC now) in
       tokens (exec env s op w) = tokens_CreateOrUpdate (tokens w) t /\
       tokens_GetByUserID (tokens (exec env s op w)) u = (t, None) /\
       (at_most_one (tokens w) -> stored (tokens (exec env s op w)) u = [t])) /\
  (forall (w : World E) (R1 : string) (p2 : TokenPair),
     result (run (handle env) (RefreshToken s R1) w) = (p2, None) ->
     TokenPair_RefreshToken p2 <> R1 ->
     let u := fst (fst (env _ (ParseRefreshToken R1) (ext w))) in
     let w1 := final (run (handle env) (RefreshToken s R1) w) in
     let r1 := run (handle env) (RefreshToken s R1) w1 in
     let r2 :=
       run (handle env) (RefreshToken s (TokenPair_RefreshToken p2)) w1 in
     (not_attributed_elsewhere env R1 u w1 ->
      existsb (fun e => on_token_repo e && failed e) (trace r1) = false ->
      result r1 = (TokenPair_zero, Some ErrInvalidRefreshToken)) /\
     (not_attributed_elsewhere env (TokenPair_RefreshToken p2) u w1 ->
      existsb failed (trace r2) = false ->
      issued_and_persisted u r2)).
Proof.
  split; [|split].
  - exact exec_all_at_most_one.
  - intros op w pair tr Hissue.
    destruct (issue_overwrites op w pair tr Hissue) as (u & now & Hsubj & Htok).
    exists u, now. split; [exact Hsubj|]. cbv zeta.
    rewrite Htok. split; [reflexivity|]. split.
    + apply (GetByUserID_CreateOrUpdate (tokens w)
               (mkRefreshToken u (TokenPair_RefreshToken pair) (UTC now))).
    + intros Hw.
      apply (stored_CreateOrUpdate_only (tokens w)
               (mkRefreshToken u (TokenPair_RefreshToken pair) (UTC now)) Hw).
  - intros w R1 p2 Hok Hne u w1 r1 r2. subst u w1 r1 r2.
    destruct (RefreshToken_success_store R1 w p2 Hok)
      as (u & now & e & Hparse & Hfinal).
    rewrite Hfinal, Hparse. simpl fst.
    set (t2 := mkRefreshToken u (TokenPair_RefreshToken p2) (UTC now)).
    assert (Hst : tokens_GetByUserID
                    (tokens (mkWorld e (users w)
                               (tokens_CreateOrUpdate (tokens w) t2))) u
                  = (t2, None))
      by apply (GetByUserID_CreateOrUpdate (tokens w) t2).
    split.
    + intros Hattr Hf.
      exact (RefreshToken_stale R1 u _ t2 Hst Hne Hattr Hf).
    + intros Hattr Hf.
      exact (RefreshToken_current _ u _ t2 Hst eq_refl Hattr Hf).
Qed.

Lemma next_ID_fresh (us : list User) (usr : User) :
  In usr us -> (User_ID usr < next_ID us)%N.
Proof.
  unfold next_ID. induction us as [|x rest IH]; simpl; intros Hin.
  - contradiction.
  - destruct Hin as [->|Hin]; [lia|]. specialize (IH Hin). lia.
Qed.

Lemma users_Create_created (us us' : list User) (c : UserCreate) (id : ID) :
  users_Create us c = ((id, None), us') ->
  id = next_ID us /\
  us' = (us ++ [mkUser id (UserCreate_Username c) (UserCreate_PasswordHash c)
                  (UserCreate_Role c) (UserCreate_CreatedAt c)])%list.
Proof.
  unfold users_Create. destruct (existsb _ us); intros H; inversion H.
  split; reflexivity.
Qed.

Lemma stored_fresh (w : World E) :
  tokens_of_users w -> stored (tokens w) (next_ID (users w)) = [].
Proof.
  intros Hw. unfold stored.
  assert (Hall : forall t, In t (tokens w) ->
                   (RefreshToken_UserID t =? next_ID (users w))%N = false).
  { intros t Hin. destruct (Hw t Hin) as (usr & Husr & Hid).
    apply N.eqb_neq. pose proof (next_ID_fresh _ _ Husr). lia. }
  induction (tokens w) as [|x rest IH]; simpl; [reflexivity|].
  rewrite Hall by (left; reflexivity).
  apply IH. intros t Hin. apply Hall. right. exact Hin.
Qed.

(** C9.  [Register] is not atomic.  When the user repository has created
    the user and the generation of the token pair or the write of the
    refresh token then fails, [Register] returns a ServiceError, and the
    user stays stored under the given name with the role "student", so
    that the name is taken; the create is the only call the run makes on
    the user repository.  When it is the generation that failed, no
    call on the token repository is made and the token table is as it was;
    the new user has no stored refresh token if every stored token
    belonged to a stored user. *)
Theorem Register_not_atomic
  (username password : string) (w : World E) (id : ID) :
  let r := run (handle env) (Register s username password) w in
  Exists (created username id) (trace r) ->
  Exists (generation_failed id) (trace r) \/
  Exists (persist_failed id) (trace r) ->
  (exists e, result r = (TokenPair_zero, Some e) /\ isServiceError e = true) /\
  (exists usr : User,
     In usr (users (final r)) /\ User_ID usr = id /\
     User_Username usr = username /\ User_Role usr = RoleStudent) /\
  existsb (fun usr => (User_Username usr =? username)%string)
    (users (final r)) = true /\
  length (filter on_user_repo (trace r)) = 1 /\
  (Exists (generation_failed id) (trace r) ->
   existsb on_token_repo (trace r) = false /\
   tokens (final r) = tokens w /\
   (tokens_of_users w -> stored (tokens (final r)) id = [])).
Proof.
  unfold Register, generateTokenPair, handle. simpl.
  walk_mem env; intros Hc Hf; trace_cases;
    match goal with
    | H : users_Create _ _ = _ |- _ =>
        apply users_Create_created in H; simpl in H; destruct H as [Hid Hus]
    end;
    (split; [eexists; split; reflexivity|]);
    (split; [eexists; split;
             [rewrite Hus; apply in_or_app; right; left; reflexivity
             |simpl; auto]|]);
    (split; [rewrite Hus, existsb_app; simpl; rewrite String.eqb_refl;
             apply orb_true_iff; right; reflexivity|]);
    (split; [reflexivity|]);
    intros Hg; trace_cases;
    (split; [reflexivity|]); (split; [reflexivity|]);
    intros Hw; rewrite Hid; apply stored_fresh, Hw.
Qed.

End StoreProperties.

(** ** The properties at concrete inputs *)
Section Instances.

Import auth events contract memory example.
Local Open Scope N_scope.

(** An unknown user and a wrong password for alice get the same answer. *)
Lemma Login_invalid_credentials_witness :
  result (run (handle (env no_faults)) (Login svc "mallory" "pw1") world0)
  = (TokenPair_zero, Some ErrInvalidLoginOrPassword) /\
  result (run (handle (env no_faults)) (Login svc "alice" "guess") world0)
  = (TokenPair_zero, Some ErrInvalidLoginOrPassword).
Proof.
  split.
  - apply (Login_invalid_credentials (handle (env no_faults)) svc
             "mallory" "pw1" world0 world0 User_zero (Some ErrNotFound)).
    + reflexivity.
    + left. exists ErrNotFound. split; reflexivity.
  - apply (Login_invalid_credentials (handle (env no_faults)) svc
             "alice" "guess" world0 world0 alice None).
    + reflexivity.
    + right. split; reflexivity.
Defined.

(** With the database refusing reads, [Login] hands back the driver's
    error as it is; it is not a ServiceError. *)
Lemma Login_lookup_error_returned_raw_witness :
  errors_Is connection_refused NotFound = false /\
  isServiceError connection_refused = false /\
  run (handle (env (mkFaults 9 0 9))) (Login svc "alice" "pw1") world0
  = ((TokenPair_zero, Some connection_refused), world0,
     [Ev (UserRepo_GetByUsername "alice")
        (User_zero, Some connection_refused)]).
Proof.
  split; [reflexivity|]. split; [reflexivity|].
  apply (Login_lookup_error_returned_raw (handle (env (mkFaults 9 0 9))) svc
           "alice" "pw1" world0 world0 User_zero connection_refused);
    reflexivity.
Defined.

(** With the database refusing reads, a valid access token of alice is
    answered with [ErrUserNotFound]. *)
Lemma GetUserFromAccessToken_outcomes_witness :
  errors_Is connection_refused NotFound = false /\
  result (run (handle (env (mkFaults 9 0 9)))
            (GetUserFromAccessToken svc "A2") world0)
  = (User_zero, Some ErrUserNotFound).
Proof.
  split; [reflexivity|].
  destruct (GetUserFromAccessToken_outcomes
              (handle (env (mkFaults 9 0 9))) svc "A2" world0 world0 world0
              1 None User_zero (Some connection_refused) eq_refl eq_refl)
    as (_ & Hlookup & _).
  apply Hlookup; [reflexivity|discriminate].
Defined.

(** A string that is no token leaves the token table alone. *)
Lemma RefreshToken_unparsable_witness :
  let r := run (handle (env no_faults)) (RefreshToken svc "garbage") world0 in
  r = ((TokenPair_zero, Some ErrInvalidRefreshToken), world0,
       [Ev (ParseRefreshToken "garbage") (0%N, Some malformed)]) /\
  existsb on_token_repo (trace r) = false /\
  tokens (final r) = tokens world0.
Proof.
  destruct (RefreshToken_unparsable (handle (env no_faults)) svc
              "garbage" world0 world0 0%N malformed eq_refl) as [Hrun Hno].
  split; [exact Hrun|]. split; [exact Hno|]. reflexivity.
Defined.

(** C1 as it is worded fails: alice presents the very token that is
    stored for her, so neither failure case applies, and yet no pair is
    returned when a collaborator fails. *)
Lemma RefreshToken_three_cases_refuted :
  (* the JWT manager cannot sign *)
  ~ RefreshToken_three_cases (handle (env (mkFaults 0 9 9))) svc "R1" world0 /\
  (* the write of the new token is refused *)
  ~ RefreshToken_three_cases (handle (env (mkFaults 9 9 1))) svc "R1" world0 /\
  (* the lookup of the stored token is refused *)
  ~ RefreshToken_three_cases (handle (env (mkFaults 9 0 9))) svc "R1" world0.
Proof.
  split; [|split]; intros H.
  - destruct (H 1%N world0 world0 (mkRefreshToken 1 "R1" 50) None
                eq_refl eq_refl) as (_ & _ & H3).
    destruct H3 as [Hok _].
    + intros (e & He & _). discriminate.
    + intros [_ Hd]. apply Hd. reflexivity.
    + vm_compute in Hok. discriminate.
  - destruct (H 1%N world0 world0 (mkRefreshToken 1 "R1" 50) None
                eq_refl eq_refl) as (_ & _ & H3).
    destruct H3 as [Hok _].
    + intros (e & He & _). discriminate.
    + intros [_ Hd]. apply Hd. reflexivity.
    + vm_compute in Hok. discriminate.
  - destruct (H 1%N world0 world0 RefreshToken_zero (Some connection_refused)
                eq_refl eq_refl) as (_ & _ & H3).
    destruct H3 as [Hok _].
    + intros (e & He & Hnf). inversion He; subst. discriminate.
    + intros [Hd _]. discriminate.
    + vm_compute in Hok. discriminate.
Qed.

(** The three cases of [RefreshToken] for alice: her stored token is
    renewed, a token without a stored one is answered UserNotFound, another
    token than the stored one InvalidRefreshToken. *)
Lemma RefreshToken_cases_witness :
  let r := run (handle (env no_faults)) (RefreshToken svc "R1") world0 in
  existsb failed (trace r) = false /\
  issued_and_persisted 1%N r /\
  result r = (NewTokenPair "A2" "R2", None) /\
  result (run (handle (env no_faults)) (RefreshToken svc "R1")
            world_no_session)
  = (TokenPair_zero, Some ErrUserNotFound) /\
  result (run (handle (env no_faults)) (RefreshToken svc "R2") world0)
  = (TokenPair_zero, Some ErrInvalidRefreshToken).
Proof.
  split; [reflexivity|]. split; [|split; [reflexivity|split]].
  - destruct (RefreshToken_cases (handle (env no_faults)) svc "R1"
                world0 world0 world0 1%N (mkRefreshToken 1 "R1" 50) None
                eq_refl eq_refl) as (_ & _ & H3 & _).
    apply H3.
    + intros (e & He & _). discriminate.
    + intros [_ Hd]. apply Hd. reflexivity.
    + reflexivity.
  - destruct (RefreshToken_cases (handle (env no_faults)) svc "R1"
                world_no_session world_no_session world_no_session 1%N
                RefreshToken_zero (Some ErrNotFound)
                eq_refl eq_refl) as (H1 & _).
    apply H1. exists ErrNotFound. split; reflexivity.
  - destruct (RefreshToken_cases (handle (env no_faults)) svc "R2"
                world0 world0 world0 1%N (mkRefreshToken 1 "R1" 50) None
                eq_refl eq_refl) as (_ & H2 & _).
    apply H2. split; [reflexivity|discriminate].
Defined.

(** bob registers: the calls of the run in full; alice's name is taken;
    alice logs in.  Both succeed, as no call fails. *)
Lemma Register_steps_witness :
  let r := run (handle (env no_faults)) (Register svc "bob" "pw2") world0 in
  let l := run (handle (env no_faults)) (Login svc "alice" "pw1") world0 in
  trace r
  = [Ev (HashPassword "pw2" "pepper") ("pepperpw2", None);
     Ev TimeNow 100%N;
     Ev (UserRepo_Create (mkUserCreate "bob" "pepperpw2" "student" 100))
        (2%N, None);
     Ev (GenerateAccessToken 2) ("A2", None);
     Ev (GenerateRefreshToken 2) ("R2", None);
     Ev TimeNow 101%N;
     Ev (TokenRepo_CreateOrUpdate (mkRefreshToken 2 "R2" 101)) None] /\
  (exists id : ID,
     Exists (created "bob" id) (trace r) /\ issued_and_persisted id r) /\
  result (run (handle (env no_faults)) (Register svc "alice" "pw2") world0)
  = (TokenPair_zero, Some ErrUsernameAlreadyTaken) /\
  (exists user : User,
     fst (handle (env no_faults) _ (UserRepo_GetByUsername "alice") world0)
     = (user, None) /\
     issued_and_persisted (User_ID user) l) /\
  result r = (NewTokenPair "A2" "R2", None) /\
  result l = (NewTokenPair "A2" "R2", None) /\
  (existsb failed (trace r) = false /\ snd (result r) = None) /\
  (existsb failed (trace l) = false /\ snd (result l) = None).
Proof.
  pose proof (Register_steps (handle (env no_faults)) svc "bob" "pw2" world0)
    as Hbob.
  pose proof (Register_steps (handle (env no_faults)) svc "alice" "pw2" world0)
    as Htaken.
  pose proof (Register_steps (handle (env no_faults)) svc "alice" "pw1" world0)
    as Halice.
  cbv zeta in Hbob, Htaken, Halice.
  destruct Hbob as (_ & _ & Hok & _ & Hrun & _ & Hnofail & _).
  destruct Htaken as (_ & Hcreate & _).
  destruct Halice as (_ & _ & _ & Hlogin & _ & Hlrun & _ & Hlnofail).
  split; [reflexivity|]. split; [|split; [|split; [|split; [|split; [|split]]]]].
  - apply Hok. reflexivity.
  - destruct (Hcreate "pepperpw2" world0 eq_refl) as (_ & Hdup).
    apply (Hdup ErrAlreadyExists); reflexivity.
  - apply (Hlogin world0). reflexivity.
  - rewrite (Hrun "pepperpw2" "A2" "R2" 100 101 2
               world0
               world0
               (mkWorld 0%nat
                  [alice; mkUser 2 "bob" "pepperpw2" "student" 100]
                  (tokens world0))
               (mkWorld 0%nat
                  [alice; mkUser 2 "bob" "pepperpw2" "student" 100]
                  (tokens world0))
               (mkWorld 1%nat
                  [alice; mkUser 2 "bob" "pepperpw2" "student" 100]
                  (tokens world0))
               (mkWorld 1%nat
                  [alice; mkUser 2 "bob" "pepperpw2" "student" 100]
                  (tokens world0))
               (mkWorld 1%nat
                  [alice; mkUser 2 "bob" "pepperpw2" "student" 100]
                  [mkRefreshToken 1 "R1" 50; mkRefreshToken 2 "R2" 101])
               eq_refl eq_refl eq_refl eq_refl eq_refl eq_refl eq_refl).
    reflexivity.
  - rewrite (Hlrun alice "A2" "R2" 101
               world0 world0 world0 world0
               (mkWorld 1%nat [alice] (tokens world0))
               (mkWorld 1%nat [alice] (tokens world0))
               (mkWorld 1%nat [alice] [mkRefreshToken 1 "R2" 101])
               eq_refl eq_refl eq_refl eq_refl eq_refl eq_refl).
    reflexivity.
  - split; [reflexivity|]. apply Hnofail. reflexivity.
  - split; [reflexivity|].
    destruct (Hlnofail world0 eq_refl) as [Hnil|(Hrefused & _)];
      [exact Hnil|discriminate Hrefused].
Defined.

(** bob registers while the JWT manager cannot sign, or while the write of
    his token is refused: he gets an error and is registered all the same. *)
Lemma Register_not_atomic_witness :
  let r := run (handle (env (mkFaults 0 9 9))) (Register svc "bob" "pw2")
             world0 in
  Exists (created "bob" 2%N) (trace r) /\
  Exists (generation_failed 2%N) (trace r) /\
  (exists e, result r = (TokenPair_zero, Some e) /\ isServiceError e = true) /\
  existsb (fun usr => (User_Username usr =? "bob")%string) (users (final r))
  = true /\
  tokens (final r) = tokens world0 /\
  (* the write of the token is refused instead *)
  let r' := run (handle (env (mkFaults 9 9 1))) (Register svc "bob" "pw2")
              world0 in
  Exists (persist_failed 2%N) (trace r') /\
  (exists e, result r' = (TokenPair_zero, Some e) /\ isServiceError e = true) /\
  existsb (fun usr => (User_Username usr =? "bob")%string) (users (final r'))
  = true.
Proof.
  assert (Hc : Exists (created "bob" 2%N)
                 (trace (run (handle (env (mkFaults 0 9 9)))
                           (Register svc "bob" "pw2") world0))).
  { apply Exists_cons_tl, Exists_cons_tl, Exists_cons_hd.
    split; reflexivity. }
  assert (Hg : Exists (generation_failed 2%N)
                 (trace (run (handle (env (mkFaults 0 9 9)))
                           (Register svc "bob" "pw2") world0))).
  { apply Exists_cons_tl, Exists_cons_tl, Exists_cons_tl, Exists_cons_hd.
    split; [reflexivity|discriminate]. }
  assert (Hc' : Exists (created "bob" 2%N)
                  (trace (run (handle (env (mkFaults 9 9 1)))
                            (Register svc "bob" "pw2") world0))).
  { apply Exists_cons_tl, Exists_cons_tl, Exists_cons_hd.
    split; reflexivity. }
  assert (Hp : Exists (persist_failed 2%N)
                 (trace (run (handle (env (mkFaults 9 9 1)))
                           (Register svc "bob" "pw2") world0))).
  { do 6 apply Exists_cons_tl. apply Exists_cons_hd.
    split; [reflexivity|discriminate]. }
  destruct (Register_not_atomic (env (mkFaults 0 9 9)) svc "bob" "pw2" world0
              2%N Hc (or_introl Hg)) as (Herr & _ & Htaken & _ & Hgen).
  destruct (Hgen Hg) as (_ & Htok & _).
  destruct (Register_not_atomic (env (mkFaults 9 9 1)) svc "bob" "pw2" world0
              2%N Hc' (or_intror Hp)) as (Herr' & _ & Htaken' & _).
  repeat (split; [assumption|]). assumption.
Defined.

(** User 7 may neither update nor delete class 3, which is user 1's. *)
Lemma Update_Delete_not_owner_witness :
  run class_repo (class.Update _ _ _ 7%N 3%N "room 12") tt
  = (Some ErrDontHavePermission, tt,
     [Ev (class.Repo_GetByID 3) (mkClass 10, None);
      Ev (class.ScheduleRepo_GetByID 10) (mkSchedule 1, None)]) /\
  run class_repo (class.Delete _ _ _ 7%N 3%N) tt
  = (Some ErrDontHavePermission, tt,
     [Ev (class.Repo_GetByID 3) (mkClass 10, None);
      Ev (class.ScheduleRepo_GetByID 10) (mkSchedule 1, None)]).
Proof.
  destruct (Update_Delete_not_owner class_repo 7%N 3%N "room 12" tt tt tt
              (mkClass 10) (mkSchedule 1) eq_refl eq_refl)
    as (Hupd & _ & Hdel & _).
  - discriminate.
  - split; [exact Hupd|exact Hdel].
Defined.

(** The one row read before the query failed is returned with the error. *)
Lemma GetAll_returns_repository_slice_witness :
  result (run class_repo (class.GetAll _ _ _ 10%N) tt)
  = (["algebra"], Some connection_refused).
Proof.
  rewrite (GetAll_returns_repository_slice class_repo 10%N tt tt
             ["algebra"] 1%N (Some connection_refused) eq_refl).
  reflexivity.
Defined.

(** C2 as it is worded fails: after alice has renewed "R1" into "R2", the
    new token is not accepted when the JWT manager cannot sign again, and
    the old one is not answered InvalidRefreshToken when the lookup is
    refused. *)
Lemma superseded_unconditionally_refuted :
  (* the JWT manager can sign one pair only: the new token is not accepted *)
  ~ superseded_unconditionally (env (mkFaults 1 9 9)) svc world0 "R1" /\
  (* reads are refused after the first pair: the old token gets another
     error *)
  ~ superseded_unconditionally (env (mkFaults 9 1 9)) svc world0 "R1".
Proof.
  split; intros H.
  - destruct (H (NewTokenPair "A2" "R2") eq_refl) as [_ Hnew].
    + discriminate.
    + vm_compute in Hnew. discriminate.
  - destruct (H (NewTokenPair "A2" "R2") eq_refl) as [Hold _].
    + discriminate.
    + vm_compute in Hold. discriminate.
Qed.

Lemma at_most_one_world0 : at_most_one (tokens world0).
Proof.
  intros id. unfold stored. simpl.
  match goal with |- context [if ?b then _ else _] => destruct b end;
    simpl; lia.
Qed.

(** alice's session: the invariant over a sequence of operations, the
    overwrite on login, and "R1" refused, "R2" accepted after the renewal. *)
Lemma refresh_token_per_user_witness :
  at_most_one
    (tokens (exec_all (env no_faults) svc
               [OpRefreshToken "R1"; OpLogin "alice" "pw1";
                OpRegister "bob" "pw2"; OpRefreshToken "garbage"] world0)) /\
  (exists (u : ID) (now : Time),
     subject (OpLogin "alice" "pw1") u
       (trace (run (handle (env no_faults)) (Login svc "alice" "pw1") world0))
     /\
     stored (tokens (exec (env no_faults) svc (OpLogin "alice" "pw1") world0)) u
     = [mkRefreshToken u "R2" (UTC now)]) /\
  let w1 := final (run (handle (env no_faults)) (RefreshToken svc "R1")
                     world0) in
  result (run (handle (env no_faults)) (RefreshToken svc "R1") w1)
  = (TokenPair_zero, Some ErrInvalidRefreshToken) /\
  issued_and_persisted 1
    (run (handle (env no_faults)) (RefreshToken svc "R2") w1).
Proof.
  destruct (refresh_token_per_user (env no_faults) svc)
    as (Hinv & Hover & Hscenario).
  split; [apply Hinv, at_most_one_world0|]. split.
  - destruct (Hover (OpLogin "alice" "pw1") world0 (NewTokenPair "A2" "R2")
                _ eq_refl) as (u & now & Hsubj & _ & _ & Hone).
    exists u, now. split; [exact Hsubj|]. apply Hone, at_most_one_world0.
  - destruct (Hscenario world0 "R1" (NewTokenPair "A2" "R2") eq_refl)
      as [Hold Hnew].
    + discriminate.
    + split.
      * apply Hold; [|reflexivity].
        intros u' Hu'. vm_compute in Hu'. inversion Hu'. reflexivity.
      * apply Hnew; [|reflexivity].
        intros u' Hu'. vm_compute in Hu'. inversion Hu'. reflexivity.
Defined.

End Instances.

(** ** More on AuthService: what every run does and never does *)
Section AuthRuns.

Import auth events calls.
Context {W : Type} (h : Handler Call W) (s : AuthService).

(** X1.  [generateTokenPair] asks for the access token first.  When that
    fails the refresh token is never asked for; when the refresh token
    fails the access token just generated is dropped.  The error returned
    wraps the manager's error, which [errors.Is] still finds, and a pair is
    returned only when both generations succeeded, both for the same
    user. *)
Theorem generateTokenPair_outcomes
  (userID : ID) (w w1 w2 : W) (a r : string) (aerr rerr : option error) :
  h _ (GenerateAccessToken userID) w = ((a, aerr), w1) ->
  h _ (GenerateRefreshToken userID) w1 = ((r, rerr), w2) ->
  let g := run h (generateTokenPair s userID) w in
  (forall e, aerr = Some e ->
     g = ((TokenPair_zero,
           Some (Errorf "generateTokenPair.GenerateAccessToken: %w" e)),
          w1, [Ev (GenerateAccessToken userID) (a, Some e)])) /\
  (forall e, aerr = None -> rerr = Some e ->
     g = ((TokenPair_zero,
           Some (Errorf "generateTokenPair.GenerateRefreshToken: %w" e)),
          w2, [Ev (GenerateAccessToken userID) (a, None);
               Ev (GenerateRefreshToken userID) (r, Some e)])) /\
  (aerr = None -> rerr = None ->
     g = ((NewTokenPair a r, None), w2,
          [Ev (GenerateAccessToken userID) (a, None);
           Ev (GenerateRefreshToken userID) (r, None)])) /\
  (forall (e cause : error) (target : Sentinel),
     snd (result g) = Some e ->
     aerr = Some cause \/ (aerr = None /\ rerr = Some cause) ->
     errors_Is e target = errors_Is cause target).
Proof.
  intros Ha Hr g. subst g. unfold generateTokenPair. simpl. rewrite Ha.
  destruct aerr as [ae|]; simpl.
  - split; [|split; [|split]].
    + intros e He. inversion He; subst. reflexivity.
    + intros e Hd; discriminate.
    + intros Hd; discriminate.
    + intros e cause target He [Hc|[Hc _]]; [|discriminate].
      inversion He; inversion Hc; subst. reflexivity.
  - rewrite Hr. destruct rerr as [re|]; simpl.
    + split; [|split; [|split]].
      * intros e Hd; discriminate.
      * intros e _ He. inversion He; subst. reflexivity.
      * intros _ Hd; discriminate.
      * intros e cause target He [Hc|[_ Hc]]; [discriminate|].
        inversion He; inversion Hc; subst. reflexivity.
    + split; [|split; [|split]].
      * intros e Hd; discriminate.
      * intros e _ Hd; discriminate.
      * reflexivity.
      * intros e cause target He. discriminate.
Qed.

(** X2.  An error never comes with data.  Whenever [Login], [Register] or
    [RefreshToken] returns an error the token pair returned with it is the
    zero pair, also when tokens had already been generated; whenever
    [GetUserFromAccessToken] returns an error the user returned is the zero
    user, whatever the repository handed back. *)
Theorem errors_carry_zero_values
  (username password token : string) (w : W) :
  (snd (result (run h (Login s username password) w)) <> None ->
   fst (result (run h (Login s username password) w)) = TokenPair_zero) /\
  (snd (result (run h (Register s username password) w)) <> None ->
   fst (result (run h (Register s username password) w)) = TokenPair_zero) /\
  (snd (result (run h (RefreshToken s token) w)) <> None ->
   fst (result (run h (RefreshToken s token) w)) = TokenPair_zero) /\
  (snd (result (run h (GetUserFromAccessToken s token) w)) <> None ->
   fst (result (run h (GetUserFromAccessToken s token) w)) = User_zero).
Proof.
  split; [|split; [|split]].
  - unfold Login, generateTokenPair. simpl.
    walk h; intros Herr; try reflexivity; exfalso; apply Herr; reflexivity.
  - unfold Register, generateTokenPair. simpl.
    walk h; intros Herr; try reflexivity; exfalso; apply Herr; reflexivity.
  - unfold RefreshToken, generateTokenPair. simpl.
    walk h; intros Herr; try reflexivity; exfalso; apply Herr; reflexivity.
  - unfold GetUserFromAccessToken. simpl.
    walk h; intros Herr; try reflexivity; exfalso; apply Herr; reflexivity.
Qed.

(** X3.  The errors of [Login]: the sentinel
    [ErrInvalidLoginOrPassword], the very error the lookup of the username
    answered with, or a ServiceError. *)
Theorem Login_error_kinds
  (username password : string) (w : W) (e : error) :
  snd (result (run h (Login s username password) w)) = Some e ->
  e = ErrInvalidLoginOrPassword \/
  snd (fst (h _ (UserRepo_GetByUsername username) w)) = Some e \/
  isServiceError e = true.
Proof.
  unfold Login, generateTokenPair. simpl.
  walk h; intros He; inversion He; subst; auto.
Qed.

(** X4.  The errors of [Register]: the sentinel [ErrUsernameAlreadyTaken]
    or a ServiceError.  No error of a collaborator is handed through as it
    is. *)
Theorem Register_error_kinds
  (username password : string) (w : W) (e : error) :
  snd (result (run h (Register s username password) w)) = Some e ->
  e = ErrUsernameAlreadyTaken \/ isServiceError e = true.
Proof.
  unfold Register, generateTokenPair. simpl.
  walk h; intros He; inversion He; subst; auto.
Qed.

(** X5.  The errors of [RefreshToken]: the sentinels
    [ErrInvalidRefreshToken] and [ErrUserNotFound], or a ServiceError.  The
    error of a failed parse is never handed on. *)
Theorem RefreshToken_error_kinds (token : string) (w : W) (e : error) :
  snd (result (run h (RefreshToken s token) w)) = Some e ->
  e = ErrInvalidRefreshToken \/ e = ErrUserNotFound \/
  isServiceError e = true.
Proof.
  unfold RefreshToken, generateTokenPair. simpl.
  walk h; intros He; inversion He; subst; auto.
Qed.

(** X6.  In every run of [Login], [Register] and [RefreshToken] the write
    of the refresh token, if there is one, is the last call: nothing is
    written to the token repository before everything else has been done,
    and it is written at most once. *)
Theorem token_write_is_last (username password token : string) (w : W) :
  existsb on_token_write
    (removelast (trace (run h (Login s username password) w))) = false /\
  existsb on_token_write
    (removelast (trace (run h (Register s username password) w))) = false /\
  existsb on_token_write
    (removelast (trace (run h (RefreshToken s token) w))) = false.
Proof.
  split; [|split].
  - unfold Login, generateTokenPair. simpl. walk h; reflexivity.
  - unfold Register, generateTokenPair. simpl. walk h; reflexivity.
  - unfold RefreshToken, generateTokenPair. simpl. walk h; reflexivity.
Qed.

(** X7.  [GetUserFromAccessToken] only reads: it parses the token and looks
    the user up by ID, at most these two calls, and never writes to a
    repository, never touches the token repository and never generates a
    token. *)
Theorem GetUserFromAccessToken_read_only (accessToken : string) (w : W) :
  let tr := trace (run h (GetUserFromAccessToken s accessToken) w) in
  existsb (fun e => on_user_write e || on_token_repo e || on_generate e
                    || on_hash e) tr = false /\
  length tr <= 2.
Proof.
  unfold GetUserFromAccessToken. simpl.
  walk h; split; try reflexivity; simpl; lia.
Qed.

(** X8.  [Login] generates tokens and writes to the token repository only
    for a user that was found and whose password was verified: when a run
    contains a generation or a token write, the lookup had answered
    without error and [VerifyPassword], asked with the presented password,
    the stored hash and the salt, had answered true. *)
Theorem Login_issues_only_after_verification
  (username password : string) (w : W) :
  existsb on_issue (trace (run h (Login s username password) w)) = true ->
  exists (user : User) (w1 : W),
    h _ (UserRepo_GetByUsername username) w = ((user, None), w1) /\
    fst (h _ (VerifyPassword password (User_PasswordHash user)
                (passwordSalt s)) w1) = true.
Proof.
  unfold Login, generateTokenPair. simpl.
  walk h; intros Hissue; try discriminate;
    (do 2 eexists; split; [reflexivity|]);
    match goal with
    | E : h _ (VerifyPassword _ _ _) _ = _ |- _ => rewrite E
    end;
    destruct x; simpl in *; congruence.
Qed.

(** X9.  [RefreshToken] never consults the user repository nor package
    hash: a refresh token is honoured on the strength of the token
    repository alone, whether or not the user still exists. *)
Theorem RefreshToken_never_consults_users (token : string) (w : W) :
  existsb (fun e => on_user_repo e || on_hash e)
    (trace (run h (RefreshToken s token) w)) = false.
Proof.
  unfold RefreshToken, generateTokenPair. simpl. walk h; reflexivity.
Qed.

(** X10.  A refused refresh changes nothing: when [RefreshToken] returns
    [ErrInvalidRefreshToken] or [ErrUserNotFound] no token was generated
    and nothing was written; the run made at most the parse and the
    lookup. *)
Theorem RefreshToken_refused_issues_nothing (token : string) (w : W) :
  let r := run h (RefreshToken s token) w in
  snd (result r) = Some ErrInvalidRefreshToken \/
  snd (result r) = Some ErrUserNotFound ->
  existsb on_issue (trace r) = false /\ length (trace r) <= 2.
Proof.
  unfold RefreshToken, generateTokenPair. simpl.
  walk h; intros [He|He]; try discriminate He;
    split; try reflexivity; simpl; lia.
Qed.

(** X11.  When the hashing of the password fails, [Register] returns the
    error wrapped as a ServiceError; the hashing is the only call made, so
    no user is created. *)
Theorem Register_hash_failure
  (username password : string) (w w1 : W) (passwordHash : string) (e : error) :
  h _ (HashPassword password (passwordSalt s)) w
  = ((passwordHash, Some e), w1) ->
  run h (Register s username password) w
  = ((TokenPair_zero,
      Some (NewServiceError "AuthService.Register: hashing password" e)),
     w1, [Ev (HashPassword password (passwordSalt s)) (passwordHash, Some e)]).
Proof.
  intros Hhash. unfold Register. simpl. rewrite Hhash. reflexivity.
Qed.

(** X12.  When the creation of the user fails, [Register] stops there: no
    token is generated and nothing is written to the token repository.
    The error is [ErrUsernameAlreadyTaken] for AlreadyExists and otherwise
    the repository's error wrapped as a ServiceError. *)
Theorem Register_create_failure
  (username password : string) (w w1 w2 w3 : W) (passwordHash : string)
  (now : Time) (id : ID) (e : error) :
  h _ (HashPassword password (passwordSalt s)) w
  = ((passwordHash, None), w1) ->
  h _ TimeNow w1 = (now, w2) ->
  h _ (UserRepo_Create (mkUserCreate username passwordHash RoleStudent now)) w2
  = ((id, Some e), w3) ->
  run h (Register s username password) w
  = ((TokenPair_zero,
      Some (if errors_Is e AlreadyExists
            then ErrUsernameAlreadyTaken
            else NewServiceError "AuthService.Register: create user" e)),
     w3,
     [Ev (HashPassword password (passwordSalt s)) (passwordHash, None);
      Ev TimeNow now;
      Ev (UserRepo_Create (mkUserCreate username passwordHash RoleStudent now))
         (id, Some e)]).
Proof.
  intros Hhash Hnow Hcreate. unfold Register. simpl.
  rewrite Hhash. simpl. rewrite Hnow. simpl. rewrite Hcreate. simpl.
  destruct (errors_Is e AlreadyExists); reflexivity.
Qed.

(** X13.  The user repository as the service uses it: [Login] makes
    exactly one call on it, the lookup by name, and never creates a user;
    [Register] never reads it -- there is no check for the name before the
    creation -- and calls [Create] at most once. *)
Theorem user_repository_calls (username password : string) (w : W) :
  let l := trace (run h (Login s username password) w) in
  let r := trace (run h (Register s username password) w) in
  (length (filter on_user_repo l) = 1 /\ existsb on_user_write l = false) /\
  (existsb on_user_read r = false /\ length (filter on_user_write r) <= 1).
Proof.
  split.
  - unfold Login, generateTokenPair. simpl. walk h; split; reflexivity.
  - unfold Register, generateTokenPair. simpl.
    walk h; split; try reflexivity; simpl; lia.
Qed.

(** X14.  When a token generation fails, or the write of the refresh token
    fails, [Login], [Register] and [RefreshToken] return a ServiceError;
    when it is a generation that failed nothing is written to the token
    repository. *)
Theorem issue_failure_is_service_error
  (username password token : string) (w : W) :
  let ok (r : (TokenPair * option error) * W * list (Event Call)) :=
    existsb issue_failed (trace r) = true ->
    (exists e, snd (result r) = Some e /\ isServiceError e = true) /\
    (existsb (fun e => on_generate e && failed e) (trace r) = true ->
     existsb on_token_write (trace r) = false) in
  ok (run h (Login s username password) w) /\
  ok (run h (Register s username password) w) /\
  ok (run h (RefreshToken s token) w).
Proof.
  cbv zeta. split; [|split].
  - unfold Login, generateTokenPair. simpl.
    walk h; intros Hfail; try discriminate;
      (split; [eexists; split; reflexivity|]);
      intros Hgen; try discriminate; reflexivity.
  - unfold Register, generateTokenPair. simpl.
    walk h; intros Hfail; try discriminate;
      (split; [eexists; split; reflexivity|]);
      intros Hgen; try discriminate; reflexivity.
  - unfold RefreshToken, generateTokenPair. simpl.
    walk h; intros Hfail; try discriminate;
      (split; [eexists; split; reflexivity|]);
      intros Hgen; try discriminate; reflexivity.
Qed.

End AuthRuns.

(** ** More on ClassService *)
Section ClassRuns.

Import class class_calls.
Context {CreateClassDTO UpdateClassDTO ClassView : Type} {W : Type}.
Let Call := class.Call CreateClassDTO UpdateClassDTO ClassView.
Context (h : Handler Call W).

(** X15.  [Create] hands the DTO to [CreateOrSplit] and makes no other
    call.  On success it returns the ID the repository gave; on an error it
    returns that error, not wrapped, with the ID 0 whatever ID came with
    the error. *)
Theorem Create_outcomes
  (dto : CreateClassDTO) (w w1 : W) (id : N) (err : option error) :
  h _ (Repo_CreateOrSplit dto) w = ((id, err), w1) ->
  run h (Create _ _ _ dto) w
  = ((match err with Some _ => 0%N | None => id end, err), w1,
     [Ev (Repo_CreateOrSplit dto) (id, err)]).
Proof.
  intros Hcreate. unfold Create. simpl. rewrite Hcreate.
  destruct err; reflexivity.
Qed.

(** X16.  [Create], [GetByID] and [GetAll] do not check who owns the
    schedule: each makes exactly one call, on the class repository, and
    never looks a schedule up. *)
Theorem no_owner_check_outside_Update_Delete
  (dto : CreateClassDTO) (id scheduleID : N) (w : W) :
  let unchecked (tr : list (Event Call)) :=
    length tr = 1 /\ existsb on_schedule_repo tr = false in
  unchecked (trace (run h (Create _ _ _ dto) w)) /\
  unchecked (trace (run h (GetByID _ _ _ id) w)) /\
  unchecked (trace (run h (GetAll _ _ _ scheduleID) w)).
Proof.
  cbv zeta. split; [|split].
  - unfold Create. simpl. walk h; split; reflexivity.
  - unfold GetByID. simpl. walk h; split; reflexivity.
  - unfold GetAll. simpl. walk h; split; reflexivity.
Qed.

(** X17.  For the owner of the schedule, [Update] hands the update to
    [UpdateOrSwitch] together with the class ID and the schedule ID read
    from the class, and returns what that call returned; [Delete] deletes
    the class and returns what [Delete] of the repository returned.  In
    both the two lookups come first. *)
Theorem Update_Delete_by_owner
  (userID id : N) (update : UpdateClassDTO) (w w1 w2 : W)
  (entry : Class) (schedule : Schedule) :
  h _ (Repo_GetByID id) w = ((entry, None), w1) ->
  h _ (ScheduleRepo_GetByID (Class_ScheduleID entry)) w1
  = ((schedule, None), w2) ->
  Schedule_UserID schedule = userID ->
  let lookups :=
    [Ev (Repo_GetByID id) (entry, None);
     Ev (ScheduleRepo_GetByID (Class_ScheduleID entry)) (schedule, None)] in
  let updated :=
    h _ (Repo_UpdateOrSwitch id (Class_ScheduleID entry) update) w2 in
  let deleted := h _ (Repo_Delete id) w2 in
  run h (Update _ _ _ userID id update) w
  = (fst updated, snd updated,
     (lookups ++ [Ev (Repo_UpdateOrSwitch id (Class_ScheduleID entry) update)
                    (fst updated)])%list) /\
  run h (Delete _ _ _ userID id) w
  = (fst deleted, snd deleted,
     (lookups ++ [Ev (Repo_Delete id) (fst deleted)])%list).
Proof.
  intros Hclass Hsched Hown lookups updated deleted.
  subst lookups updated deleted.
  apply N.eqb_eq in Hown.
  split.
  - unfold Update. simpl. rewrite Hclass. simpl. rewrite Hsched. simpl.
    rewrite Hown. simpl.
    destruct (h _ (Repo_UpdateOrSwitch id (Class_ScheduleID entry) update) w2).
    reflexivity.
  - unfold Delete, isScheduleOwner. simpl. rewrite Hclass. simpl.
    rewrite Hsched. simpl. rewrite Hown. simpl.
    destruct (h _ (Repo_Delete id) w2). reflexivity.
Qed.

(** X18.  When a lookup fails, [Update] and [Delete] return the
    repository's error as it is and write nothing: after a failed lookup
    of the class the schedule is not looked up, and after a failed lookup
    of the schedule no permission is decided. *)
Theorem Update_Delete_lookup_failure
  (userID id : N) (update : UpdateClassDTO) (w w1 w2 : W)
  (entry : Class) (cerr : option error) (schedule : Schedule) (e : error) :
  h _ (Repo_GetByID id) w = ((entry, cerr), w1) ->
  h _ (ScheduleRepo_GetByID (Class_ScheduleID entry)) w1
  = ((schedule, Some e), w2) ->
  (forall ce, cerr = Some ce ->
     let failed := (Some ce, w1, [Ev (Repo_GetByID id) (entry, Some ce)]) in
     run h (Update _ _ _ userID id update) w = failed /\
     run h (Delete _ _ _ userID id) w = failed) /\
  (cerr = None ->
     let failed :=
       (Some e, w2,
        [Ev (Repo_GetByID id) (entry, None);
         Ev (ScheduleRepo_GetByID (Class_ScheduleID entry))
           (schedule, Some e)]) in
     run h (Update _ _ _ userID id update) w = failed /\
     run h (Delete _ _ _ userID id) w = failed).
Proof.
  intros Hclass Hsched. split.
  - intros ce ->. cbv zeta. split.
    + unfold Update. simpl. rewrite Hclass. reflexivity.
    + unfold Delete, isScheduleOwner. simpl. rewrite Hclass. reflexivity.
  - intros ->. cbv zeta. split.
    + unfold Update. simpl. rewrite Hclass. simpl. rewrite Hsched.
      reflexivity.
    + unfold Delete, isScheduleOwner. simpl. rewrite Hclass. simpl.
      rewrite Hsched. reflexivity.
Qed.

(** X19.  [isScheduleOwner] answers nil exactly when the class is found,
    its schedule is found and the schedule's user is the acting user; it
    makes at most the two lookups and never writes. *)
Theorem isScheduleOwner_nil_iff
  (userID classID : N) (w w1 w2 : W) (entry : Class) (cerr : option error)
  (schedule : Schedule) (serr : option error) :
  h _ (Repo_GetByID classID) w = ((entry, cerr), w1) ->
  h _ (ScheduleRepo_GetByID (Class_ScheduleID entry)) w1
  = ((schedule, serr), w2) ->
  let o := run h (isScheduleOwner _ _ _ userID classID) w in
  (result o = None <->
   cerr = None /\ serr = None /\ Schedule_UserID schedule = userID) /\
  existsb is_write (trace o) = false /\
  length (trace o) <= 2.
Proof.
  intros Hclass Hsched. unfold isScheduleOwner. simpl. rewrite Hclass.
  destruct cerr as [ce|]; simpl.
  - split; [|split; [reflexivity|lia]].
    split; [discriminate|intros (Hd & _); discriminate].
  - rewrite Hsched. destruct serr as [se|]; simpl.
    + split; [|split; [reflexivity|lia]].
      split; [discriminate|intros (_ & Hd & _); discriminate].
    + destruct (N.eqb_spec (Schedule_UserID schedule) userID) as [Heq|Hne];
        simpl.
      * split; [|split; [reflexivity|lia]]. split; auto.
      * split; [|split; [reflexivity|lia]].
        split; [discriminate|intros (_ & _ & Heq); contradiction].
Qed.

(** X20.  [Update] and [Delete] are refused on the same grounds.  Whenever
    [isScheduleOwner] answers with an error, [Update] and [Delete] return
    that error after the same calls and in the same state, without a
    write; whenever it answers nil both go on to their one write. *)
Theorem Update_Delete_follow_isScheduleOwner
  (userID id : N) (update : UpdateClassDTO) (w : W) :
  let o := run h (isScheduleOwner _ _ _ userID id) w in
  let u := run h (Update _ _ _ userID id update) w in
  let d := run h (Delete _ _ _ userID id) w in
  (forall e, result o = Some e -> u = o /\ d = o) /\
  (result o = None ->
   length (filter is_write (trace u)) = 1 /\
   length (filter is_write (trace d)) = 1 /\
   firstn 2 (trace u) = trace o /\ firstn 2 (trace d) = trace o).
Proof.
  cbv zeta. unfold Update, Delete, isScheduleOwner. simpl.
  walk h; (split; [intros e' He'|intros Hnil]);
    try discriminate; repeat split; reflexivity.
Qed.

End ClassRuns.

(** ** The further properties at concrete inputs *)
Section MoreInstances.

Import auth events calls contract memory example outage.
Local Open Scope N_scope.

(** Signing works: alice gets the pair "A2", "R2".  Signing is out of
    order: the refresh token is not asked for. *)
Lemma generateTokenPair_outcomes_witness :
  run (handle (env no_faults)) (generateTokenPair svc 1) world0
  = ((NewTokenPair "A2" "R2", None),
     mkWorld 1%nat (users world0) (tokens world0),
     [Ev (GenerateAccessToken 1) ("A2", None);
      Ev (GenerateRefreshToken 1) ("R2", None)]) /\
  trace (run broken (generateTokenPair svc 1) tt)
  = [Ev (GenerateAccessToken 1) ("", Some connection_refused)].
Proof.
  split.
  - destruct (generateTokenPair_outcomes (handle (env no_faults)) svc 1
                world0 world0 (mkWorld 1%nat (users world0) (tokens world0))
                "A2" "R2" None None eq_refl eq_refl) as (_ & _ & Hok & _).
    apply Hok; reflexivity.
  - destruct (generateTokenPair_outcomes broken svc 1 tt tt tt
                "" "" (Some connection_refused) (Some connection_refused)
                eq_refl eq_refl) as (Hfail & _).
    rewrite (Hfail connection_refused eq_refl). reflexivity.
Defined.

(** A wrong password for alice: an error and the zero pair. *)
Lemma errors_carry_zero_values_witness :
  snd (result (run (handle (env no_faults)) (Login svc "alice" "guess")
                 world0)) <> None /\
  fst (result (run (handle (env no_faults)) (Login svc "alice" "guess")
                 world0)) = TokenPair_zero /\
  fst (result (run (handle (env (mkFaults 9 9 1)))
                 (RefreshToken svc "R1") world0)) = TokenPair_zero.
Proof.
  destruct (errors_carry_zero_values (handle (env no_faults)) svc
              "alice" "guess" "R1" world0) as (Hlogin & _).
  destruct (errors_carry_zero_values (handle (env (mkFaults 9 9 1))) svc
              "alice" "guess" "R1" world0) as (_ & _ & Hrefresh & _).
  split; [discriminate|]. split.
  - apply Hlogin. discriminate.
  - apply Hrefresh. discriminate.
Defined.

(** alice's wrong password is answered with the sentinel. *)
Lemma Login_error_kinds_witness :
  ErrInvalidLoginOrPassword = ErrInvalidLoginOrPassword \/
  snd (fst (handle (env no_faults) _ (UserRepo_GetByUsername "alice") world0))
  = Some ErrInvalidLoginOrPassword \/
  isServiceError ErrInvalidLoginOrPassword = true.
Proof.
  exact (Login_error_kinds (handle (env no_faults)) svc "alice" "guess"
           world0 ErrInvalidLoginOrPassword eq_refl).
Defined.

(** alice's name is taken. *)
Lemma Register_error_kinds_witness :
  ErrUsernameAlreadyTaken = ErrUsernameAlreadyTaken \/
  isServiceError ErrUsernameAlreadyTaken = true.
Proof.
  exact (Register_error_kinds (handle (env no_faults)) svc "alice" "pw2"
           world0 ErrUsernameAlreadyTaken eq_refl).
Defined.

(** The database refuses the lookup of alice's stored token. *)
Lemma RefreshToken_error_kinds_witness :
  let e := NewServiceError "AuthService.RefreshToken: getting user by id"
             connection_refused in
  e = ErrInvalidRefreshToken \/ e = ErrUserNotFound \/ isServiceError e = true.
Proof.
  exact (RefreshToken_error_kinds (handle (env (mkFaults 9 0 9))) svc "R1"
           world0 _ eq_refl).
Defined.

(** alice logs in with her password: tokens are issued, and she had been
    found and verified. *)
Lemma Login_issues_only_after_verification_witness :
  existsb on_issue
    (trace (run (handle (env no_faults)) (Login svc "alice" "pw1") world0))
  = true /\
  exists (user : User) (w1 : World nat),
    handle (env no_faults) _ (UserRepo_GetByUsername "alice") world0
    = ((user, None), w1) /\
    fst (handle (env no_faults) _
           (VerifyPassword "pw1" (User_PasswordHash user) (passwordSalt svc))
           w1) = true.
Proof.
  split; [reflexivity|].
  apply (Login_issues_only_after_verification (handle (env no_faults)) svc
           "alice" "pw1" world0).
  reflexivity.
Defined.

(** alice presents "R2" while "R1" is stored for her. *)
Lemma RefreshToken_refused_issues_nothing_witness :
  let r := run (handle (env no_faults)) (RefreshToken svc "R2") world0 in
  snd (result r) = Some ErrInvalidRefreshToken /\
  existsb on_issue (trace r) = false /\ (length (trace r) <= 2)%nat.
Proof.
  split; [reflexivity|].
  apply (RefreshToken_refused_issues_nothing (handle (env no_faults)) svc
           "R2" world0).
  left. reflexivity.
Defined.

(** bob registers while nothing works. *)
Lemma Register_hash_failure_witness :
  run broken (Register svc "bob" "pw2") tt
  = ((TokenPair_zero,
      Some (NewServiceError "AuthService.Register: hashing password"
              connection_refused)),
     tt, [Ev (HashPassword "pw2" "pepper") ("", Some connection_refused)]).
Proof.
  exact (Register_hash_failure broken svc "bob" "pw2" tt tt ""
           connection_refused eq_refl).
Defined.

(** The database refuses writes: bob is not created, and no token is
    generated for him. *)
Lemma Register_create_failure_witness :
  let r := run (handle (env (mkFaults 9 9 0))) (Register svc "bob" "pw2")
             world0 in
  result r
  = (TokenPair_zero,
     Some (NewServiceError "AuthService.Register: create user"
             connection_refused)) /\
  existsb on_issue (trace r) = false.
Proof.
  rewrite (Register_create_failure (handle (env (mkFaults 9 9 0))) svc
             "bob" "pw2" world0 world0 world0 world0 "pepperpw2" 100 0
             connection_refused eq_refl eq_refl eq_refl).
  split; reflexivity.
Defined.

(** alice logs in while the JWT manager cannot sign. *)
Lemma issue_failure_is_service_error_witness :
  let r := run (handle (env (mkFaults 0 9 9))) (Login svc "alice" "pw1")
             world0 in
  existsb issue_failed (trace r) = true /\
  (exists e, snd (result r) = Some e /\ isServiceError e = true) /\
  existsb on_token_write (trace r) = false.
Proof.
  destruct (issue_failure_is_service_error (handle (env (mkFaults 0 9 9)))
              svc "alice" "pw1" "R1" world0) as (Hlogin & _).
  destruct (Hlogin eq_refl) as (Herr & Hgen).
  split; [reflexivity|]. split; [exact Herr|]. apply Hgen. reflexivity.
Defined.

(** A class is created; the repository fails and its ID 5 is not handed
    on. *)
Lemma Create_outcomes_witness :
  result (run class_repo (class.Create _ _ _ "algebra, Monday") tt)
  = (1, None) /\
  result (run (schedules_down true) (class.Create _ _ _ "algebra, Monday") tt)
  = (0, Some connection_refused).
Proof.
  split.
  - rewrite (Create_outcomes class_repo "algebra, Monday" tt tt 1 None
               eq_refl).
    reflexivity.
  - rewrite (Create_outcomes (schedules_down true) "algebra, Monday" tt tt 5
               (Some connection_refused) eq_refl).
    reflexivity.
Defined.

(** User 1 owns schedule 10 and with it class 3. *)
Lemma Update_Delete_by_owner_witness :
  run class_repo (class.Update _ _ _ 1 3 "room 12") tt
  = (None, tt,
     [Ev (class.Repo_GetByID 3) (mkClass 10, None);
      Ev (class.ScheduleRepo_GetByID 10) (mkSchedule 1, None);
      Ev (class.Repo_UpdateOrSwitch 3 10 "room 12") None]) /\
  run class_repo (class.Delete _ _ _ 1 3) tt
  = (None, tt,
     [Ev (class.Repo_GetByID 3) (mkClass 10, None);
      Ev (class.ScheduleRepo_GetByID 10) (mkSchedule 1, None);
      Ev (class.Repo_Delete 3) None]).
Proof.
  exact (Update_Delete_by_owner class_repo 1 3 "room 12" tt tt tt
           (mkClass 10) (mkSchedule 1) eq_refl eq_refl eq_refl).
Defined.

(** The class is not found; the schedule repository is down. *)
Lemma Update_Delete_lookup_failure_witness :
  result (run (schedules_down false) (class.Update _ _ _ 1 3 "room 12") tt)
  = Some ErrNotFound /\
  result (run (schedules_down true) (class.Delete _ _ _ 1 3) tt)
  = Some connection_refused.
Proof.
  destruct (Update_Delete_lookup_failure (schedules_down false) 1 3 "room 12"
              tt tt tt (mkClass 10) (Some ErrNotFound) (mkSchedule 0)
              connection_refused eq_refl eq_refl) as (Hclass & _).
  destruct (Update_Delete_lookup_failure (schedules_down true) 1 3 "room 12"
              tt tt tt (mkClass 10) None (mkSchedule 0)
              connection_refused eq_refl eq_refl) as (_ & Hsched).
  destruct (Hclass ErrNotFound eq_refl) as (Hupd & _).
  destruct (Hsched eq_refl) as (_ & Hdel).
  split.
  - rewrite Hupd. reflexivity.
  - rewrite Hdel. reflexivity.
Defined.

(** User 1 owns class 3, user 7 does not. *)
Lemma isScheduleOwner_nil_iff_witness :
  result (run class_repo (class.isScheduleOwner _ _ _ 1 3) tt) = None /\
  result (run class_repo (class.isScheduleOwner _ _ _ 7 3) tt) <> None.
Proof.
  destruct (isScheduleOwner_nil_iff class_repo 1 3 tt tt tt (mkClass 10) None
              (mkSchedule 1) None eq_refl eq_refl) as ([_ Hyes] & _).
  destruct (isScheduleOwner_nil_iff class_repo 7 3 tt tt tt (mkClass 10) None
              (mkSchedule 1) None eq_refl eq_refl) as ([Hno _] & _).
  split.
  - apply Hyes. repeat split.
  - intros Hnil. destruct (Hno Hnil) as (_ & _ & Hd). discriminate.
Defined.

(** User 7 is refused by [Update] as by [isScheduleOwner]; user 1's
    [Delete] makes its one write. *)
Lemma Update_Delete_follow_isScheduleOwner_witness :
  run class_repo (class.Update _ _ _ 7 3 "room 12") tt
  = run class_repo (class.isScheduleOwner _ _ _ 7 3) tt /\
  length (filter class.is_write
            (trace (run class_repo (class.Delete _ _ _ 1 3) tt))) = 1%nat.
Proof.
  destruct (Update_Delete_follow_isScheduleOwner class_repo 7 3 "room 12" tt)
    as (Hrefused & _).
  destruct (Update_Delete_follow_isScheduleOwner class_repo 1 3 "room 12" tt)
    as (_ & Hallowed).
  split.
  - apply (Hrefused ErrDontHavePermission). reflexivity.
  - apply Hallowed. reflexivity.
Defined.

End MoreInstances.
